(** * Weather report: the weather service and the report extremes

    A shallow embedding of [weather_report/weather_service.py] and of
    [find_extremes] from [weather_report/report.py].

    Python floats are IEEE-754 binary64 values, modelled by Rocq's primitive
    floats; Python ints are unbounded, modelled by [Z].  Exceptions are
    explicit: a computation ends in [Return] or in [Raise].  The network is
    an oracle threaded through the calls, and every request that is sent is
    recorded. *)

From Stdlib Require Import ZArith List String Ascii Bool Lia.
From Stdlib Require Import PrimFloat FloatOps SpecFloat.
From Stdlib Require Import DecimalString.
From ExtLib Require Import Structures.Monad.
Import ListNotations.
Import MonadNotation.

Local Open Scope monad_scope.
Local Open Scope Z_scope.
Local Open Scope string_scope.

(** ** The Python runtime the code relies on *)

Module Py.

(** The exception classes that can reach this code.  The first five are
    those of the [requests] library, [WeatherServiceError] is declared in
    [weather_service.py], [OtherError] stands for any unrelated class. *)
Inductive exc_class : Set :=
| RequestException
| ConnectionError
| Timeout
| HTTPError
| JSONDecodeError
| ValueError
| KeyError
| TypeError
| OverflowError
| WeatherServiceError
| OtherError.

Definition exc_class_eq_dec (a b : exc_class) : {a = b} + {a <> b}.
Proof. decide equality. Defined.

(** [issubclass c base]: the class itself, the [requests] exceptions below
    [RequestException], and [requests]' [JSONDecodeError], which also
    derives from [ValueError]. *)
Definition issubclass (c base : exc_class) : bool :=
  if exc_class_eq_dec c base then true
  else
    match c, base with
    | (ConnectionError | Timeout | HTTPError | JSONDecodeError), RequestException => true
    | JSONDecodeError, ValueError => true
    | _, _ => false
    end.

(** An exception object: its class, [str(e)] and [e.__cause__]. *)
#[warnings="-register-all"]
Inductive exn : Type :=
| Exn (cls : exc_class) (msg : string) (cause : option exn).

Definition exn_class (e : exn) : exc_class := let 'Exn c _ _ := e in c.
Definition exn_str (e : exn) : string := let 'Exn _ m _ := e in m.
Definition exn_cause (e : exn) : option exn := let 'Exn _ _ c := e in c.

Definition isinstance (e : exn) (base : exc_class) : bool :=
  issubclass (exn_class e) base.

(** The result of evaluating an expression or running a statement. *)
Inductive outcome (A : Type) : Type :=
| Return (a : A)
| Raise (e : exn).
Arguments Return {A} a.
Arguments Raise {A} e.

#[export] Instance Monad_outcome : Monad outcome :=
  {| ret := fun _ a => Return a;
     bind := fun _ _ c k => match c with Return a => k a | Raise e => Raise e end |}.

(** Values as [json.loads] builds them.  A dict holds each key once, so
    the first binding of a key in the list is its value. *)
#[warnings="-register-all"]
Inductive pyval : Type :=
| PNone
| PBool (b : bool)
| PInt (n : Z)
| PFloat (f : float)
| PStr (s : string)
| PList (l : list pyval)
| PDict (d : list (string * pyval)).

Fixpoint assoc {K V : Type} (eqb : K -> K -> bool) (k : K) (d : list (K * V)) : option V :=
  match d with
  | [] => None
  | (k', v) :: d' => if eqb k k' then Some v else assoc eqb k d'
  end.

(** [d.get(k, default)] *)
Definition dict_get {K V : Type} (eqb : K -> K -> bool) (d : list (K * V)) (k : K) (default : V) : V :=
  match assoc eqb k d with
  | Some v => v
  | None => default
  end.

Definition type_name (v : pyval) : string :=
  match v with
  | PNone => "NoneType"
  | PBool _ => "bool"
  | PInt _ => "int"
  | PFloat _ => "float"
  | PStr _ => "str"
  | PList _ => "list"
  | PDict _ => "dict"
  end.

(** [repr] of a string without quotes or escapes in it. *)
Definition repr_str (s : string) : string := "'" ++ s ++ "'".

(** [v[key]] for a string key. *)
Definition getitem (v : pyval) (key : string) : outcome pyval :=
  match v with
  | PDict d =>
      match assoc String.eqb key d with
      | Some x => Return x
      | None => Raise (Exn KeyError (repr_str key) None)
      end
  | PList _ => Raise (Exn TypeError "list indices must be integers or slices, not str" None)
  | PStr _ => Raise (Exn TypeError "string indices must be integers, not 'str'" None)
  | _ => Raise (Exn TypeError ("'" ++ type_name v ++ "' object is not subscriptable") None)
  end.

(** [float(n)] for an int: rounded to nearest, ties to even; an int beyond
    the range of a double raises [OverflowError]. *)
Definition int_to_float (n : Z) : outcome float :=
  match binary_normalize prec emax n 0 false with
  | S754_infinity _ => Raise (Exn OverflowError "int too large to convert to float" None)
  | sf => Return (SF2Prim sf)
  end.

(** [int(f)] for a float: truncation towards zero. *)
Definition float_to_int (f : float) : outcome Z :=
  match Prim2SF f with
  | S754_nan => Raise (Exn ValueError "cannot convert float NaN to integer" None)
  | S754_infinity _ => Raise (Exn OverflowError "cannot convert float infinity to integer" None)
  | S754_zero _ => Return 0
  | S754_finite s m e =>
      let magnitude := Z.shiftl (Z.pos m) e in
      Return (if s then - magnitude else magnitude)
  end.

(** The parsers behind [float(str)] and [int(str)]: [None] when the
    string is not a numeric literal. *)
Class StrParsers : Type :=
  { str_to_float : string -> option float;
    str_to_int : string -> option Z }.

Section Coercions.
Context {parsers : StrParsers}.

(** [float(v)] *)
Definition py_float (v : pyval) : outcome float :=
  match v with
  | PFloat f => Return f
  | PInt n => int_to_float n
  | PBool b => Return (if b then 1%float else 0%float)
  | PStr s =>
      match str_to_float s with
      | Some f => Return f
      | None => Raise (Exn ValueError ("could not convert string to float: " ++ repr_str s) None)
      end
  | _ =>
      Raise (Exn TypeError
               ("float() argument must be a string or a real number, not '"
                  ++ type_name v ++ "'") None)
  end.

(** [int(v)] *)
Definition py_int (v : pyval) : outcome Z :=
  match v with
  | PInt n => Return n
  | PBool b => Return (if b then 1 else 0)
  | PFloat f => float_to_int f
  | PStr s =>
      match str_to_int s with
      | Some n => Return n
      | None => Raise (Exn ValueError ("invalid literal for int() with base 10: " ++ repr_str s) None)
      end
  | _ =>
      Raise (Exn TypeError
               ("int() argument must be a string, a bytes-like object or a real number, not '"
                  ++ type_name v ++ "'") None)
  end.

End Coercions.

(** Comparison of floats is the IEEE-754 comparison of the operands: every
    comparison with NaN is false. *)
Definition float_lt (a b : float) : bool := SFltb (Prim2SF a) (Prim2SF b).
Definition float_gt (a b : float) : bool := float_lt b a.
Definition float_le (a b : float) : bool := SFleb (Prim2SF a) (Prim2SF b).
Definition sf_is_nan (x : spec_float) : bool :=
  match x with
  | S754_nan => true
  | _ => false
  end.
Definition is_nan (a : float) : bool := sf_is_nan (Prim2SF a).

(** [max(l, key=key)]: the first item whose key no later item exceeds;
    a later item replaces the current one only when its key is strictly
    greater.  [min] is alike with [<]. *)
Definition best_by {A K : Type} (better : K -> K -> bool) (key : A -> K)
    (first : A) (rest : list A) : A :=
  fold_left (fun best item => if better (key item) (key best) then item else best)
            rest first.

Definition py_max {A K : Type} (gt : K -> K -> bool) (key : A -> K) (l : list A) : outcome A :=
  match l with
  | [] => Raise (Exn ValueError "max() iterable argument is empty" None)
  | first :: rest => Return (best_by gt key first rest)
  end.

Definition py_min {A K : Type} (lt : K -> K -> bool) (key : A -> K) (l : list A) : outcome A :=
  match l with
  | [] => Raise (Exn ValueError "min() iterable argument is empty" None)
  | first :: rest => Return (best_by lt key first rest)
  end.

(** [needle in haystack] for strings. *)
Fixpoint str_contains (haystack needle : string) : bool :=
  if String.prefix needle haystack then true
  else
    match haystack with
    | EmptyString => false
    | String _ rest => str_contains rest needle
    end.

End Py.

(** ** Strings, formatting and the other builtins of the report *)

Module PyText.
Import Py.

(** A [str] is held as its UTF-8 bytes.  Concatenation, containment and
    the order of [sorted] are the same on the bytes as on the code points;
    [len] counts the code points, that is the bytes that do not continue
    a character. *)
Definition is_continuation (c : ascii) : bool :=
  let n := N_of_ascii c in
  (128 <=? n)%N && (n <? 192)%N.

Fixpoint py_len (s : string) : nat :=
  match s with
  | EmptyString => 0%nat
  | String c rest => ((if is_continuation c then 0 else 1) + py_len rest)%nat
  end.

(** The newline character. *)
Definition NL : string := String (ascii_of_nat 10) EmptyString.

(** [s * n] *)
Fixpoint str_mul (s : string) (n : nat) : string :=
  match n with
  | O => ""
  | S n' => s ++ str_mul s n'
  end.

(** [sep.join(l)] *)
Definition join (sep : string) (l : list string) : string := String.concat sep l.

(** [format(s, "<width")]: padded with spaces on the right, never cut. *)
Definition ljust (width : nat) (s : string) : string :=
  s ++ str_mul " " (width - py_len s).

(** [str(n)] for an int. *)
Definition str_of_int (n : Z) : string := NilZero.string_of_int (Z.to_int n).

(** [a / b] rounded to the nearest integer, a tie to the even one, for
    [0 <= a] and [0 < b]. *)
Definition round_half_even (a b : Z) : Z :=
  let q := a / b in
  match 2 * (a mod b) ?= b with
  | Lt => q
  | Gt => q + 1
  | Eq => if Z.even q then q else q + 1
  end.

(** [m * 2^e * 10^digits], rounded to an integer. *)
Definition scaled (digits : nat) (m : positive) (e : Z) : Z :=
  let a := Z.pos m * 10 ^ Z.of_nat digits in
  if (0 <=? e)%Z then a * 2 ^ e else round_half_even a (2 ^ (- e)).

(** The decimal text of [n / 10^digits] with [digits] decimals, [0 <= n]. *)
Definition fixed_digits (digits : nat) (n : Z) : string :=
  let unit := 10 ^ Z.of_nat digits in
  let fraction := str_of_int (n mod unit) in
  str_of_int (n / unit) ++
  match digits with
  | O => ""
  | _ => "." ++ str_mul "0" (digits - String.length fraction) ++ fraction
  end.

(** [format(x, ".<digits>f")]: the exact value of the double rounded to
    [digits] decimals, ties to even, the sign kept even when the digits
    are all zero. *)
Definition format_fixed (digits : nat) (x : float) : string :=
  match Prim2SF x with
  | S754_nan => "nan"
  | S754_infinity s => if s then "-inf" else "inf"
  | S754_zero s => (if s then "-" else "") ++ fixed_digits digits 0
  | S754_finite s m e => (if s then "-" else "") ++ fixed_digits digits (scaled digits m e)
  end.

(** [sorted(l)] for strings: code point order is the order of the bytes. *)
Fixpoint insert_sorted (x : string) (l : list string) : list string :=
  match l with
  | [] => [x]
  | y :: l' => if String.leb x y then x :: l else y :: insert_sorted x l'
  end.

Definition py_sorted (l : list string) : list string :=
  fold_right insert_sorted [] l.

(** [d[k]] for a dict with string keys. *)
Definition dict_getitem {V : Type} (d : list (string * V)) (k : string) : outcome V :=
  match assoc String.eqb k d with
  | Some v => Return v
  | None => Raise (Exn KeyError (repr_str k) None)
  end.

(** [d.setdefault(k, []).append(v)]: a new key goes last. *)
Fixpoint setdefault_append {V : Type} (k : string) (v : V) (d : list (string * list V))
    : list (string * list V) :=
  match d with
  | [] => [(k, [v])]
  | (k', vs) :: d' =>
      if String.eqb k k' then (k', (vs ++ [v])%list) :: d'
      else (k', vs) :: setdefault_append k v d'
  end.

(** Truth value of an optional object whose class defines neither
    [__bool__] nor [__len__]: only [None] is false. *)
Definition truthy {A : Type} (o : option A) : bool :=
  match o with
  | Some _ => true
  | None => false
  end.

(** What the interpreter and the clock decide: [sum] over floats (a plain
    left-to-right sum before Python 3.12, a compensated one since), the
    true division of two ints with a non-zero divisor ([None] when the
    quotient is beyond the range of a double), and the text of
    [datetime.now(tz=timezone.utc).strftime("%Y-%m-%d %H:%M:%S UTC")]. *)
Class Builtins : Type :=
  { float_sum : list float -> float;
    int_truediv : Z -> Z -> option float;
    utc_now_text : string }.

(** [a / n] for a float and an int.  [OtherError] stands for
    [ZeroDivisionError] here. *)
Definition float_div_int (a : float) (n : Z) : outcome float :=
  if (n =? 0)%Z then Raise (Exn OtherError "float division by zero" None)
  else b <- int_to_float n ;; Return (a / b)%float.

(** [a / n] for two ints. *)
Definition int_div_int {builtins : Builtins} (a n : Z) : outcome float :=
  if (n =? 0)%Z then Raise (Exn OtherError "division by zero" None)
  else
    match int_truediv a n with
    | Some q => Return q
    | None => Raise (Exn OverflowError "integer division result too large for a float" None)
    end.

End PyText.

(** ** [weather_report/countries.py]: the record the service reads *)

Module Countries.

(** Modelled from the spec: the [Country] dataclass of
    [weather_report/countries.py], whose source is not at hand: a location
    with a country name, a capital name, a latitude/longitude pair and a
    continent name.  The order of the fields is that of the constructor
    calls in the tests
    ([Country("TestLand", "TestCity", 10.0, 20.0, "TestContinent")]). *)
Record Country : Type :=
  { name : string;
    capital : string;
    latitude : float;
    longitude : float;
    continent : string }.

End Countries.

(** ** The [requests] library, as far as the service uses it *)

Module Requests.
Import Py.

(** What [requests.get(url, params=..., timeout=...)] is called with. *)
Record Request : Type :=
  { url : string;
    params : list (string * pyval);
    timeout : Z }.

(** A response object: what its two methods do when called. *)
Record Response : Type :=
  { raise_for_status : outcome unit;
    json : outcome pyval }.

(** The network: a request in some state of the world is answered by a
    response or by an exception, and the world moves on. *)
Class Network : Type :=
  { World : Type;
    http_get : Request -> World -> outcome Response * World }.

End Requests.

(** ** [weather_report/weather_service.py] *)

Module WeatherService.
Import Py Requests.

Definition OPEN_METEO_BASE_URL : string := "https://api.open-meteo.com/v1/forecast".
Definition REQUEST_TIMEOUT : Z := 10.

Inductive WeatherCondition : Set :=
| CLEAR
| PARTLY_CLOUDY
| OVERCAST
| FOG
| DRIZZLE
| RAIN
| SNOW
| THUNDERSTORM
| UNKNOWN.

(** The [value] of each member of the enumeration. *)
Definition condition_value (c : WeatherCondition) : string :=
  match c with
  | CLEAR => "Clear"
  | PARTLY_CLOUDY => "Partly Cloudy"
  | OVERCAST => "Overcast"
  | FOG => "Fog"
  | DRIZZLE => "Drizzle"
  | RAIN => "Rain"
  | SNOW => "Snow"
  | THUNDERSTORM => "Thunderstorm"
  | UNKNOWN => "Unknown"
  end.

Definition WMO_CODE_MAP : list (Z * WeatherCondition) :=
  [ (0, CLEAR);
    (1, CLEAR);
    (2, PARTLY_CLOUDY);
    (3, OVERCAST);
    (45, FOG);
    (48, FOG);
    (51, DRIZZLE);
    (53, DRIZZLE);
    (55, DRIZZLE);
    (56, DRIZZLE);
    (57, DRIZZLE);
    (61, RAIN);
    (63, RAIN);
    (65, RAIN);
    (66, RAIN);
    (67, RAIN);
    (71, SNOW);
    (73, SNOW);
    (75, SNOW);
    (77, SNOW);
    (80, RAIN);
    (81, RAIN);
    (82, RAIN);
    (85, SNOW);
    (86, SNOW);
    (95, THUNDERSTORM);
    (96, THUNDERSTORM);
    (99, THUNDERSTORM) ].

Record WeatherData : Type :=
  { country : string;
    capital : string;
    continent : string;
    temperature_celsius : float;
    temperature_fahrenheit : float;
    humidity : Z;
    wind_speed_kmh : float;
    condition : WeatherCondition;
    weather_code : Z }.

(** The argument is a float, as annotated and as [fetch_weather] passes
    it; each of the three operations rounds to the nearest double. *)
Definition celsius_to_fahrenheit (celsius : float) : float :=
  ((celsius * 9 / 5) + 32)%float.

Definition interpret_weather_code (code : Z) : WeatherCondition :=
  dict_get Z.eqb WMO_CODE_MAP code UNKNOWN.

(** The [temperature_display] property of [WeatherData]. *)
Definition temperature_display (w : WeatherData) : string :=
  PyText.format_fixed 1 (temperature_celsius w) ++ "°C / "
    ++ PyText.format_fixed 1 (temperature_fahrenheit w) ++ "°F".

Section Service.
Context {parsers : StrParsers} {net : Network}.

(** The state a call runs in: the world behind the network, and the
    requests sent so far, oldest first. *)
Record State : Type :=
  { world : World;
    sent : list Request }.

(** A statement: from a state to an outcome and the state it leaves. *)
Definition M (A : Type) : Type := State -> outcome A * State.

#[export] Instance Monad_M : Monad M :=
  {| ret := fun _ a s => (Return a, s);
     bind := fun _ _ c k s =>
               match c s with
               | (Return a, s') => k a s'
               | (Raise e, s') => (Raise e, s')
               end |}.

Definition raise {A : Type} (e : exn) : M A := fun s => (Raise e, s).

(** An expression without effect, evaluated inside a statement. *)
Definition lift {A : Type} (o : outcome A) : M A := fun s => (o, s).

(** [try: body  except classes as e: handler e]; an exception of another
    class passes through. *)
Definition try_except {A : Type} (body : M A) (classes : list exc_class)
    (handler : exn -> M A) : M A :=
  fun s =>
    match body s with
    | (Return a, s') => (Return a, s')
    | (Raise e, s') =>
        if existsb (isinstance e) classes then handler e s' else (Raise e, s')
    end.

(** [requests.get]: the request goes out, whatever the answer is. *)
Definition requests_get (url : string) (params : list (string * pyval)) (timeout : Z)
    : M Response :=
  fun s =>
    let request := {| url := url; params := params; timeout := timeout |} in
    let (answer, w) := http_get request (world s) in
    (answer, {| world := w; sent := (sent s ++ [request])%list |}).

Definition fetch_weather (c : Countries.Country) : M WeatherData :=
  let params :=
    [ ("latitude", PFloat (Countries.latitude c));
      ("longitude", PFloat (Countries.longitude c));
      ("current", PStr "temperature_2m,relative_humidity_2m,weather_code,wind_speed_10m") ] in
  response <-
    try_except
      (response <- requests_get OPEN_METEO_BASE_URL params REQUEST_TIMEOUT ;;
       _ <- lift (raise_for_status response) ;;
       ret response)
      [RequestException]
      (fun e =>
         raise (Exn WeatherServiceError
                  ("Failed to fetch weather for " ++ Countries.name c
                     ++ " (" ++ Countries.capital c ++ "): " ++ exn_str e)
                  (Some e))) ;;
  current <-
    try_except
      (data <- lift (json response) ;;
       lift (getitem data "current"))
      [ValueError; KeyError]
      (fun e =>
         raise (Exn WeatherServiceError
                  ("Invalid response for " ++ Countries.name c
                     ++ " (" ++ Countries.capital c ++ "): " ++ exn_str e)
                  (Some e))) ;;
  temp_c <- lift (v <- getitem current "temperature_2m" ;; py_float v) ;;
  code <- lift (v <- getitem current "weather_code" ;; py_int v) ;;
  let fahrenheit := celsius_to_fahrenheit temp_c in
  hum <- lift (v <- getitem current "relative_humidity_2m" ;; py_int v) ;;
  wind <- lift (v <- getitem current "wind_speed_10m" ;; py_float v) ;;
  ret {| country := Countries.name c;
         capital := Countries.capital c;
         continent := Countries.continent c;
         temperature_celsius := temp_c;
         temperature_fahrenheit := fahrenheit;
         humidity := hum;
         wind_speed_kmh := wind;
         condition := interpret_weather_code code;
         weather_code := code |}.

(** The loop of [fetch_weather_batch] over the countries still to do, with
    the [results] collected so far. *)
Fixpoint batch_loop (on_error : string) (countries : list Countries.Country)
    (results : list WeatherData) : M (list WeatherData) :=
  match countries with
  | [] => ret results
  | c :: rest =>
      results' <-
        try_except
          (weather <- fetch_weather c ;;
           ret (results ++ [weather])%list)
          [WeatherServiceError]
          (fun e => if on_error =? "raise" then raise e else ret results) ;;
      batch_loop on_error rest results'
  end.

Definition fetch_weather_batch (countries : list Countries.Country) (on_error : string)
    : M (list WeatherData) :=
  batch_loop on_error countries [].

End Service.

End WeatherService.

(** ** [weather_report/report.py] *)

Module Report.
Import Py PyText WeatherService.

Definition find_extremes (weather_list : list WeatherData)
    : outcome (list (string * option WeatherData)) :=
  match weather_list with
  | [] =>
      Return [ ("hottest", None);
               ("coldest", None);
               ("most_humid", None);
               ("windiest", None) ]
  | _ :: _ =>
      hottest <- py_max float_gt temperature_celsius weather_list ;;
      coldest <- py_min float_lt temperature_celsius weather_list ;;
      most_humid <- py_max Z.gtb humidity weather_list ;;
      windiest <- py_max float_gt wind_speed_kmh weather_list ;;
      Return [ ("hottest", Some hottest);
               ("coldest", Some coldest);
               ("most_humid", Some most_humid);
               ("windiest", Some windiest) ]
  end.

Definition format_single_report (weather : WeatherData) : string :=
  let lines :=
    [ "  Country     : " ++ country weather;
      "  Capital     : " ++ capital weather;
      "  Continent   : " ++ continent weather;
      "  Temperature : " ++ temperature_display weather;
      "  Humidity    : " ++ str_of_int (humidity weather) ++ "%";
      "  Wind Speed  : " ++ format_fixed 1 (wind_speed_kmh weather) ++ " km/h";
      "  Condition   : " ++ condition_value (condition weather) ] in
  join NL lines.

Definition summary_header : string :=
  ljust 40 "Country" ++ " " ++ ljust 25 "Capital" ++ " " ++ ljust 10 "Temp (C)" ++ " "
    ++ ljust 10 "Temp (F)" ++ " "
    ++ ljust 10 "Humidity" ++ " " ++ ljust 12 "Wind (km/h)" ++ " " ++ ljust 15 "Condition".

Definition summary_row (w : WeatherData) : string :=
  ljust 40 (country w) ++ " " ++ ljust 25 (capital w) ++ " "
    ++ ljust 10 (format_fixed 1 (temperature_celsius w)) ++ " "
    ++ ljust 10 (format_fixed 1 (temperature_fahrenheit w)) ++ " "
    ++ ljust 10 (str_of_int (humidity w)) ++ " "
    ++ ljust 12 (format_fixed 1 (wind_speed_kmh w)) ++ " "
    ++ ljust 15 (condition_value (condition w)).

Definition format_summary_table (weather_list : list WeatherData) : string :=
  let header := summary_header in
  let separator := str_mul "-" (py_len header) in
  let rows := map summary_row weather_list in
  join NL ([header; separator] ++ rows)%list.

(** The first loop of [format_continent_summary]: the readings of each
    continent, the continents in order of first appearance. *)
Definition continent_data (weather_list : list WeatherData)
    : list (string * list WeatherData) :=
  fold_left (fun d w => setdefault_append (continent w) w d) weather_list [].

Section Summaries.
Context {builtins : Builtins}.

(** The five lines that the second loop adds for one continent. *)
Definition continent_lines (continent : string) (data : list WeatherData)
    : outcome (list string) :=
  let temps := map temperature_celsius data in
  avg_temp <- float_div_int (float_sum temps) (Z.of_nat (List.length temps)) ;;
  min_temp <- py_min float_lt (fun t => t) temps ;;
  max_temp <- py_max float_gt (fun t => t) temps ;;
  avg_humidity <-
    int_div_int (fold_left Z.add (map humidity data) 0) (Z.of_nat (List.length data)) ;;
  Return
    [ NL ++ "  " ++ continent ++ " ("
        ++ str_of_int (Z.of_nat (List.length data)) ++ " countries)";
      "    Avg Temperature : " ++ format_fixed 1 avg_temp ++ "°C";
      "    Min Temperature : " ++ format_fixed 1 min_temp ++ "°C";
      "    Max Temperature : " ++ format_fixed 1 max_temp ++ "°C";
      "    Avg Humidity    : " ++ format_fixed 0 avg_humidity ++ "%" ].

Fixpoint summary_loop (d : list (string * list WeatherData)) (continents : list string)
    (lines : list string) : outcome (list string) :=
  match continents with
  | [] => Return lines
  | continent :: rest =>
      data <- dict_getitem d continent ;;
      added <- continent_lines continent data ;;
      summary_loop d rest (lines ++ added)%list
  end.

Definition format_continent_summary (weather_list : list WeatherData) : outcome string :=
  let d := continent_data weather_list in
  lines <- summary_loop d (py_sorted (map fst d)) [] ;;
  Return (join NL lines).

Definition generate_full_report (weather_list : list WeatherData) : outcome string :=
  let timestamp := utc_now_text in
  let count := str_of_int (Z.of_nat (List.length weather_list)) in
  continent_summary <- format_continent_summary weather_list ;;
  let sections :=
    [ str_mul "=" 80;
      "  WORLD WEATHER REPORT";
      "  Generated: " ++ timestamp;
      "  Countries: " ++ count;
      str_mul "=" 80;
      "";
      "DETAILED TABLE";
      str_mul "-" 40;
      format_summary_table weather_list;
      "";
      "CONTINENT SUMMARY";
      str_mul "-" 40;
      continent_summary;
      "";
      str_mul "=" 80;
      "  Report complete. " ++ count ++ " countries processed.";
      str_mul "=" 80 ] in
  Return (join NL sections).

End Summaries.

Definition extreme_line (label : string) (w : WeatherData) (value : string) : string :=
  label ++ country w ++ " (" ++ capital w ++ ") - " ++ value.

Definition format_extremes (weather_list : list WeatherData) : outcome string :=
  extremes <- find_extremes weather_list ;;
  if negb (existsb truthy (map snd extremes)) then Return "No data available for extremes."
  else
    let lines := [NL ++ "  WEATHER EXTREMES"; "  " ++ str_mul "-" 40] in
    hottest <- dict_getitem extremes "hottest" ;;
    let lines :=
      match hottest with
      | Some w =>
          (lines ++ [extreme_line "  Hottest     : " w
                       (format_fixed 1 (temperature_celsius w) ++ "°C")])%list
      | None => lines
      end in
    coldest <- dict_getitem extremes "coldest" ;;
    let lines :=
      match coldest with
      | Some w =>
          (lines ++ [extreme_line "  Coldest     : " w
                       (format_fixed 1 (temperature_celsius w) ++ "°C")])%list
      | None => lines
      end in
    most_humid <- dict_getitem extremes "most_humid" ;;
    let lines :=
      match most_humid with
      | Some w =>
          (lines ++ [extreme_line "  Most Humid  : " w
                       (str_of_int (humidity w) ++ "%")])%list
      | None => lines
      end in
    windiest <- dict_getitem extremes "windiest" ;;
    let lines :=
      match windiest with
      | Some w =>
          (lines ++ [extreme_line "  Windiest    : " w
                       (format_fixed 1 (wind_speed_kmh w) ++ " km/h")])%list
      | None => lines
      end in
    Return (join NL lines).

End Report.

(** ** The lookups of [weather_report/countries.py] and [cities.py] *)

Module Geography.

(** Modelled from the spec: the [City] and [Region] dataclasses of
    [weather_report/cities.py], whose source is not at hand: a city refers
    to its country and region and has coordinates, a region refers to its
    country and continent.  The fields and their order are those of the
    constructor calls in the tests
    ([City("TestCity", "TestCountry", "TestRegion", 10.0, 20.0, True)],
    [Region("TestRegion", "TestCountry", "TestContinent")]). *)
Record City : Type :=
  { city_name : string;
    city_country : string;
    city_region : string;
    city_latitude : float;
    city_longitude : float;
    is_capital : bool }.

Record Region : Type :=
  { region_name : string;
    region_country : string;
    region_continent : string }.

(** The lookup functions of the two modules, taken as they are given:
    what they return for each argument is up to the tables behind them. *)
Class CountryLookups : Type :=
  { get_all_countries : list Countries.Country;
    get_countries_by_continent : string -> list Countries.Country;
    get_country_by_name : string -> option Countries.Country;
    get_all_continents : list string }.

Class CityLookups : Type :=
  { get_all_cities : list City;
    get_all_regions : list Region;
    get_capital_cities : list City;
    get_cities_by_country : string -> list City;
    get_city_by_name : string -> option City;
    get_regions_by_continent : string -> list Region;
    get_regions_by_country : string -> list Region }.

End Geography.

(** ** [weather_report/cli.py] *)

Module Cli.
Import Py PyText Requests WeatherService Report Geography.

Section Commands.
Context {parsers : StrParsers} {net : Network} {builtins : Builtins}.
Context {countries_module : CountryLookups}.

(** A run of a command: the state of the network, and the texts printed
    to standard output and to standard error, one entry for each [print],
    which ends its text with a newline. *)
Record Console : Type :=
  { session : State;
    stdout : list string;
    stderr : list string }.

Definition Cmd (A : Type) : Type := Console -> outcome A * Console.

#[export] Instance Monad_Cmd : Monad Cmd :=
  {| ret := fun _ a k => (Return a, k);
     bind := fun _ _ c f k =>
               match c k with
               | (Return a, k') => f a k'
               | (Raise e, k') => (Raise e, k')
               end |}.

(** [print(text)] and [print(text, file=sys.stderr)] *)
Definition print (text : string) : Cmd unit :=
  fun k =>
    (Return tt,
     {| session := session k; stdout := (stdout k ++ [text])%list; stderr := stderr k |}).

Definition print_err (text : string) : Cmd unit :=
  fun k =>
    (Return tt,
     {| session := session k; stdout := stdout k; stderr := (stderr k ++ [text])%list |}).

(** A call into the weather service. *)
Definition call {A : Type} (m : M A) : Cmd A :=
  fun k =>
    let (o, s) := m (session k) in
    (o, {| session := s; stdout := stdout k; stderr := stderr k |}).

(** An expression without effect. *)
Definition eval {A : Type} (o : outcome A) : Cmd A := fun k => (o, k).

Definition cmd_all : Cmd Z :=
  _ <- print ("Fetching weather data for all countries... This may take a few minutes."
                ++ NL) ;;
  let countries := get_all_countries in
  weather_list <- call (fetch_weather_batch countries "skip") ;;
  report <- eval (generate_full_report weather_list) ;;
  _ <- print report ;;
  extremes <- eval (format_extremes weather_list) ;;
  _ <- print extremes ;;
  ret 0.

Definition cmd_country (name : string) : Cmd Z :=
  match get_country_by_name name with
  | None =>
      _ <- print_err ("Error: Country '" ++ name ++ "' not found.") ;;
      _ <- print_err "Use 'weather-report list-countries' to see available countries." ;;
      ret 1
  | Some country =>
      fun k =>
        match call (fetch_weather country) k with
        | (Raise e, k') =>
            if isinstance e WeatherServiceError
            then (_ <- print_err ("Error: " ++ exn_str e) ;; ret 1) k'
            else (Raise e, k')
        | (Return weather, k') =>
            (_ <- print (NL ++ "  Weather Report for " ++ Countries.name country) ;;
             _ <- print ("  " ++ str_mul "-" 40) ;;
             _ <- print (format_single_report weather) ;;
             ret 0) k'
        end
  end.

Definition cmd_continent (name : string) : Cmd Z :=
  let countries := get_countries_by_continent name in
  match countries with
  | [] =>
      _ <- print_err ("Error: Continent '" ++ name ++ "' not found.") ;;
      _ <- print_err "Use 'weather-report list-continents' to see available continents." ;;
      ret 1
  | _ :: _ =>
      _ <- print ("Fetching weather data for " ++ name ++ " ("
                    ++ str_of_int (Z.of_nat (List.length countries)) ++ " countries)..."
                    ++ NL) ;;
      weather_list <- call (fetch_weather_batch countries "skip") ;;
      report <- eval (generate_full_report weather_list) ;;
      _ <- print report ;;
      extremes <- eval (format_extremes weather_list) ;;
      _ <- print extremes ;;
      ret 0
  end.

(** A [for] loop that prints one line for each item. *)
Fixpoint print_each {A : Type} (line : A -> string) (items : list A) : Cmd unit :=
  match items with
  | [] => ret tt
  | item :: rest => _ <- print (line item) ;; print_each line rest
  end.

Definition cmd_list_countries : Cmd Z :=
  let countries := get_all_countries in
  _ <- print (NL ++ "Available Countries ("
                ++ str_of_int (Z.of_nat (List.length countries)) ++ "):") ;;
  _ <- print (str_mul "-" 60) ;;
  _ <- print_each
         (fun c => "  " ++ ljust 40 (Countries.name c) ++ " Capital: " ++ Countries.capital c)
         countries ;;
  ret 0.

Definition cmd_list_continents : Cmd Z :=
  let continents := get_all_continents in
  _ <- print (NL ++ "Available Continents:") ;;
  _ <- print (str_mul "-" 30) ;;
  _ <- print_each
         (fun continent =>
            let countries := get_countries_by_continent continent in
            "  " ++ ljust 20 continent ++ " ("
              ++ str_of_int (Z.of_nat (List.length countries)) ++ " countries)")
         continents ;;
  ret 0.

End Commands.

End Cli.

(** ** [weather_report/api.py] *)

Module Api.
Import Py PyText Geography.

(** What a handler gives back: the dict it returns, or the
    [HTTPException] it raises. *)
Inductive reply : Type :=
| Ok (body : pyval)
| HTTPException (status_code : Z) (detail : string).

(** Truth value of an optional query string: [None] and the empty string
    are false. *)
Definition given (q : option string) : option string :=
  match q with
  | Some (String _ _ as text) => Some text
  | _ => None
  end.

Definition py_len_int {A : Type} (l : list A) : pyval := PInt (Z.of_nat (List.length l)).

Section Handlers.
Context {countries_module : CountryLookups} {cities_module : CityLookups}.

Definition root : reply :=
  Ok (PDict [ ("message", PStr "World Geography API");
              ("docs", PStr "/docs");
              ("endpoints", PStr "/countries, /cities, /regions") ]).

Definition country_entry (c : Countries.Country) : pyval :=
  PDict [ ("name", PStr (Countries.name c));
          ("capital", PStr (Countries.capital c));
          ("continent", PStr (Countries.continent c));
          ("latitude", PFloat (Countries.latitude c));
          ("longitude", PFloat (Countries.longitude c)) ].

Definition countries_body (countries : list Countries.Country) : reply :=
  Ok (PDict [ ("count", py_len_int countries);
              ("countries", PList (map country_entry countries)) ]).

Definition list_countries (continent : option string) : reply :=
  match given continent with
  | Some continent =>
      let countries := get_countries_by_continent continent in
      match countries with
      | [] => HTTPException 404 ("Continent '" ++ continent ++ "' not found")
      | _ :: _ => countries_body countries
      end
  | None => countries_body get_all_countries
  end.

Definition get_country (country_name : string) : reply :=
  match get_country_by_name country_name with
  | None => HTTPException 404 ("Country '" ++ country_name ++ "' not found")
  | Some country =>
      let cities := get_cities_by_country country_name in
      let regions := get_regions_by_country country_name in
      Ok (PDict
            [ ("name", PStr (Countries.name country));
              ("capital", PStr (Countries.capital country));
              ("continent", PStr (Countries.continent country));
              ("latitude", PFloat (Countries.latitude country));
              ("longitude", PFloat (Countries.longitude country));
              ("cities",
               PList (map (fun c => PDict [ ("name", PStr (city_name c));
                                            ("region", PStr (city_region c));
                                            ("is_capital", PBool (is_capital c)) ])
                          cities));
              ("regions",
               PList (map (fun r => PDict [ ("name", PStr (region_name r)) ]) regions)) ])
  end.

Definition city_entry (c : City) : pyval :=
  PDict [ ("name", PStr (city_name c));
          ("country", PStr (city_country c));
          ("region", PStr (city_region c));
          ("latitude", PFloat (city_latitude c));
          ("longitude", PFloat (city_longitude c));
          ("is_capital", PBool (is_capital c)) ].

Definition cities_body (cities : list City) : reply :=
  Ok (PDict [ ("count", py_len_int cities);
              ("cities", PList (map city_entry cities)) ]).

Definition list_cities (country : option string) (capitals_only : bool) : reply :=
  match given country with
  | Some country =>
      let cities := get_cities_by_country country in
      match cities with
      | [] => HTTPException 404 ("No cities found for country '" ++ country ++ "'")
      | _ :: _ => cities_body cities
      end
  | None =>
      if capitals_only then cities_body get_capital_cities
      else cities_body get_all_cities
  end.

Definition get_city (name : string) : reply :=
  match get_city_by_name name with
  | None => HTTPException 404 ("City '" ++ name ++ "' not found")
  | Some city => Ok (city_entry city)
  end.

Definition region_entry (r : Region) : pyval :=
  PDict [ ("name", PStr (region_name r));
          ("country", PStr (region_country r));
          ("continent", PStr (region_continent r)) ].

Definition regions_body (regions : list Region) : reply :=
  Ok (PDict [ ("count", py_len_int regions);
              ("regions", PList (map region_entry regions)) ]).

Definition list_regions (country continent : option string) : reply :=
  match given country with
  | Some country =>
      let regions := get_regions_by_country country in
      match regions with
      | [] => HTTPException 404 ("No regions found for country '" ++ country ++ "'")
      | _ :: _ => regions_body regions
      end
  | None =>
      match given continent with
      | Some continent =>
          let regions := get_regions_by_continent continent in
          match regions with
          | [] => HTTPException 404 ("No regions found for continent '" ++ continent ++ "'")
          | _ :: _ => regions_body regions
          end
      | None => regions_body get_all_regions
      end
  end.

Definition continent_entry (continent : string) : pyval :=
  let countries := get_countries_by_continent continent in
  let regions := get_regions_by_continent continent in
  PDict [ ("name", PStr continent);
          ("country_count", py_len_int countries);
          ("region_count", py_len_int regions) ].

Definition list_continents : reply :=
  let continents := get_all_continents in
  let result := fold_left (fun result continent => (result ++ [continent_entry continent])%list)
                          continents [] in
  Ok (PDict [ ("count", py_len_int result);
              ("continents", PList result) ]).

End Handlers.

End Api.

(** ** Fixtures: the sample data of the test suite and a scripted network *)

Module Fixtures.
Import Py Requests WeatherService.

(** No example below holds a string in a numeric field, so the examples
    run with parsers that are never asked. *)
Definition no_numeric_strings : StrParsers :=
  {| str_to_float := fun _ => None;
     str_to_int := fun _ => None |}.

(** A scripted network, like a mock with a list of side effects: the world
    is the list of answers still to give; when the script is over the
    connection fails. *)
Definition scripted : Network :=
  {| World := list (outcome Response);
     http_get := fun _ script =>
       match script with
       | [] => (Raise (Exn ConnectionError "Network error" None), [])
       | answer :: later => (answer, later)
       end |}.

Definition start (script : list (outcome Response))
    : @State scripted :=
  @Build_State scripted script [].

Definition SAMPLE_COUNTRY : Countries.Country :=
  {| Countries.name := "TestLand";
     Countries.capital := "TestCity";
     Countries.latitude := 10%float;
     Countries.longitude := 20%float;
     Countries.continent := "TestContinent" |}.

Definition OTHER_COUNTRY : Countries.Country :=
  {| Countries.name := "OtherLand";
     Countries.capital := "OtherCity";
     Countries.latitude := 30%float;
     Countries.longitude := 40%float;
     Countries.continent := "OtherContinent" |}.

Definition SAMPLE_API_RESPONSE : pyval :=
  PDict [ ("current",
           PDict [ ("temperature_2m", PFloat 25%float);
                   ("relative_humidity_2m", PInt 60);
                   ("weather_code", PInt 0);
                   ("wind_speed_10m", PFloat 15.5%float) ]) ].

(** A well-formed body whose [current] object lacks [temperature_2m]. *)
Definition NO_TEMPERATURE_RESPONSE : pyval :=
  PDict [ ("current",
           PDict [ ("relative_humidity_2m", PInt 60);
                   ("weather_code", PInt 0);
                   ("wind_speed_10m", PFloat 15.5%float) ]) ].

(** A body whose [weather_code] is [null]. *)
Definition NULL_CODE_RESPONSE : pyval :=
  PDict [ ("current",
           PDict [ ("temperature_2m", PFloat 25%float);
                   ("relative_humidity_2m", PInt 60);
                   ("weather_code", PNone);
                   ("wind_speed_10m", PFloat 15.5%float) ]) ].

Definition ok (body : pyval) : outcome Response :=
  Return {| raise_for_status := Return tt; json := Return body |}.

Definition http_error : outcome Response :=
  Return {| raise_for_status := Raise (Exn HTTPError "500 Server Error" None);
            json := Return PNone |}.

Definition invalid_json : outcome Response :=
  Return {| raise_for_status := Return tt;
            json := Raise (Exn JSONDecodeError "Expecting value: line 1 column 1 (char 0)" None) |}.

Definition network_error : outcome Response :=
  Raise (Exn ConnectionError "Network error" None).

Definition SAMPLE_WEATHER : WeatherData :=
  {| country := "TestLand";
     capital := "TestCity";
     continent := "TestContinent";
     temperature_celsius := 25%float;
     temperature_fahrenheit := 77%float;
     humidity := 60;
     wind_speed_kmh := 15.5%float;
     condition := CLEAR;
     weather_code := 0 |}.

Definition reading (who : string) (temp : float) (hum : Z) (wind : float) : WeatherData :=
  {| country := who;
     capital := who;
     continent := "TestContinent";
     temperature_celsius := temp;
     temperature_fahrenheit := celsius_to_fahrenheit temp;
     humidity := hum;
     wind_speed_kmh := wind;
     condition := CLEAR;
     weather_code := 0 |}.

(** Builtins for the examples: the plain left-to-right [sum], and the
    true division of ints that convert to doubles, which is exact for the
    small ints of the examples. *)
Definition plain_builtins : PyText.Builtins :=
  {| PyText.float_sum := fun l => fold_left PrimFloat.add l 0%float;
     PyText.int_truediv := fun a n =>
       match int_to_float a, int_to_float n with
       | Return x, Return y => Some (x / y)%float
       | _, _ => None
       end;
     PyText.utc_now_text := "2024-01-01 12:00:00 UTC" |}.

Definition THREE_READINGS : list WeatherData :=
  [ reading "a" 1%float 5 3%float;
    reading "b" 3%float 7 2%float;
    reading "c" 2%float 6 9%float ].

(** Two readings, the first with a NaN temperature. *)
Definition NAN_FIRST : list WeatherData :=
  [ reading "b" nan 7 2%float;
    reading "c" 2%float 7 9%float ].

End Fixtures.

(** ** Vocabulary of the properties *)

Module Vocabulary.
Import Py Requests WeatherService.

Section Vocabulary.
Context {parsers : StrParsers} {net : Network}.

(** The one request a fetch for [c] is expected to send. *)
Definition request_of (c : Countries.Country) : Request :=
  {| url := OPEN_METEO_BASE_URL;
     params :=
       [ ("latitude", PFloat (Countries.latitude c));
         ("longitude", PFloat (Countries.longitude c));
         ("current", PStr "temperature_2m,relative_humidity_2m,weather_code,wind_speed_10m") ];
     timeout := REQUEST_TIMEOUT |}.

(** Fetching every country in turn, whatever happens: the outcome of each
    fetch, in input order, and the state after the last one. *)
Fixpoint fetch_each (countries : list Countries.Country) (s : State)
    : list (outcome WeatherData) * State :=
  match countries with
  | [] => ([], s)
  | c :: rest =>
      let (o, s1) := fetch_weather c s in
      let (os, s2) := fetch_each rest s1 in
      (o :: os, s2)
  end.

(** The readings among the outcomes, in order. *)
Fixpoint readings (os : list (outcome WeatherData)) : list WeatherData :=
  match os with
  | [] => []
  | Return w :: os' => w :: readings os'
  | Raise _ :: os' => readings os'
  end.

Definition failed {A : Type} (o : outcome A) : bool :=
  match o with
  | Return _ => false
  | Raise _ => true
  end.

(** A fetch that did not succeed failed with the service's own error. *)
Definition reading_or_service_error (o : outcome WeatherData) : bool :=
  match o with
  | Return _ => true
  | Raise e => isinstance e WeatherServiceError
  end.

(** The transport fails with [e]: [requests.get] raises it, or the
    response's [raise_for_status] does. *)
Definition transport_failure (c : Countries.Country) (s : State) (e : exn) : Prop :=
  isinstance e RequestException = true /\
  (fst (http_get (request_of c) (world s)) = Raise e \/
   exists response,
     fst (http_get (request_of c) (world s)) = Return response /\
     raise_for_status response = Raise e).

(** The body of an accepted response does not parse ([json] raises a
    [ValueError]), or parses to an object without [current] (subscripting
    raises a [KeyError]). *)
Definition body_failure (c : Countries.Country) (s : State) (e : exn) : Prop :=
  exists response,
    fst (http_get (request_of c) (world s)) = Return response /\
    raise_for_status response = Return tt /\
    ((isinstance e ValueError = true /\ json response = Raise e) \/
     (isinstance e KeyError = true /\
      exists data, json response = Return data /\ getitem data "current" = Raise e)).

End Vocabulary.

(** The keys of [WMO_CODE_MAP]. *)
Definition known_codes : list Z :=
  [0; 1; 2; 3; 45; 48; 51; 53; 55; 56; 57; 61; 63; 65; 66; 67;
   71; 73; 75; 77; 80; 81; 82; 85; 86; 95; 96; 99].

(** [m] is an item of [l] whose key is the greatest, resp. the least, of
    the keys in [l] for the order [le]. *)
Definition attains_max {A K : Type} (le : K -> K -> Prop) (key : A -> K)
    (l : list A) (m : A) : Prop :=
  In m l /\ forall w, In w l -> le (key w) (key m).

Definition attains_min {A K : Type} (le : K -> K -> Prop) (key : A -> K)
    (l : list A) (m : A) : Prop :=
  In m l /\ forall w, In w l -> le (key m) (key w).

Definition float_le_prop (a b : float) : Prop := float_le a b = true.

Definition no_nan (key : WeatherData -> float) (l : list WeatherData) : Prop :=
  forall w, In w l -> is_nan (key w) = false.

(** The dict of [find_extremes] holds an extreme reading under each key. *)
Definition extremes_of (l : list WeatherData)
    (d : list (string * option WeatherData)) : Prop :=
  exists hottest coldest most_humid windiest,
    d = [ ("hottest", Some hottest);
          ("coldest", Some coldest);
          ("most_humid", Some most_humid);
          ("windiest", Some windiest) ] /\
    attains_max float_le_prop temperature_celsius l hottest /\
    attains_min float_le_prop temperature_celsius l coldest /\
    attains_max Z.le humidity l most_humid /\
    attains_max float_le_prop wind_speed_kmh l windiest.

(** [l] is [full] with some items left out, the others in their order. *)
Inductive subsequence {A : Type} : list A -> list A -> Prop :=
| subsequence_nil : subsequence [] []
| subsequence_skip (l : list A) (y : A) (full : list A) :
    subsequence l full -> subsequence l (y :: full)
| subsequence_take (x : A) (l full : list A) :
    subsequence l full -> subsequence (x :: l) (x :: full).

(** A value that is not a JSON object. *)
Definition not_an_object (v : pyval) : bool :=
  match v with
  | PDict _ => false
  | _ => true
  end.

End Vocabulary.

(** ** Vocabulary of the report, the commands and the API *)

Module ReportVocabulary.
Import Py PyText WeatherService Api.

(** The readings of continent [k]. *)
Definition of_continent (k : string) (w : WeatherData) : bool :=
  String.eqb (continent w) k.

(** An outcome that is a value or an [OverflowError], nothing else. *)
Definition returns_or_overflows {A : Type} (o : outcome A) : Prop :=
  (exists a, o = Return a) \/ (exists msg, o = Raise (Exn OverflowError msg None)).

(** A list reply: under ["count"] the number of the items under [key]. *)
Definition counted (key : string) (r : reply) : Prop :=
  match r with
  | Ok body =>
      exists items,
        body = PDict [ ("count", PInt (Z.of_nat (List.length items)));
                       (key, PList items) ]
  | HTTPException _ _ => True
  end.

Definition not_found (r : reply) : bool :=
  match r with
  | HTTPException 404 _ => true
  | _ => false
  end.

Definition is_error (r : reply) : bool :=
  match r with
  | HTTPException _ _ => true
  | Ok _ => false
  end.

End ReportVocabulary.

(** ** Fixtures for the commands and the API *)

Module StoreFixtures.
Import Py PyText Requests WeatherService Geography Cli Fixtures.

(** A table of the two sample countries, looked up by their exact names. *)
Definition two_countries : list Countries.Country := [SAMPLE_COUNTRY; OTHER_COUNTRY].

Definition sample_countries : CountryLookups :=
  {| get_all_countries := two_countries;
     get_countries_by_continent := fun name =>
       filter (fun c => String.eqb (Countries.continent c) name) two_countries;
     get_country_by_name := fun name =>
       find (fun c => String.eqb (Countries.name c) name) two_countries;
     get_all_continents := ["OtherContinent"; "TestContinent"] |}.

Definition TEST_CITY : City :=
  {| city_name := "TestCity";
     city_country := "TestLand";
     city_region := "TestRegion";
     city_latitude := 10%float;
     city_longitude := 20%float;
     is_capital := true |}.

Definition TEST_REGION : Region :=
  {| region_name := "TestRegion";
     region_country := "TestLand";
     region_continent := "TestContinent" |}.

Definition sample_cities : CityLookups :=
  {| get_all_cities := [TEST_CITY];
     get_all_regions := [TEST_REGION];
     get_capital_cities := filter is_capital [TEST_CITY];
     get_cities_by_country := fun name =>
       filter (fun c => String.eqb (city_country c) name) [TEST_CITY];
     get_city_by_name := fun name =>
       find (fun c => String.eqb (city_name c) name) [TEST_CITY];
     get_regions_by_continent := fun name =>
       filter (fun r => String.eqb (region_continent r) name) [TEST_REGION];
     get_regions_by_country := fun name =>
       filter (fun r => String.eqb (region_country r) name) [TEST_REGION] |}.

(** A command started with nothing printed yet. *)
Definition console (script : list (outcome Response)) : @Console scripted :=
  @Build_Console scripted (start script) [] [].

(** The reading that the sample answer gives for a country. *)
Definition reading_of (c : Countries.Country) : WeatherData :=
  {| country := Countries.name c;
     capital := Countries.capital c;
     continent := Countries.continent c;
     temperature_celsius := 25%float;
     temperature_fahrenheit := 77%float;
     humidity := 60;
     wind_speed_kmh := 15.5%float;
     condition := CLEAR;
     weather_code := 0 |}.

(** A reading whose humidity is beyond the range of a double. *)
Definition HUGE_HUMIDITY : WeatherData :=
  reading "a" 1%float (2 ^ 1100) 3%float.

End StoreFixtures.

(** * Facts about strings *)

Module StringFacts.
Import Py.

Lemma append_assoc (a b c : string) : (a ++ b) ++ c = a ++ b ++ c.
Proof. induction a as [ | x a IH]; cbn; [ | rewrite IH]; reflexivity. Qed.

Lemma append_nil_r (a : string) : a ++ "" = a.
Proof. induction a as [ | x a IH]; cbn; [ | rewrite IH]; reflexivity. Qed.

Lemma prefix_append (t b : string) : String.prefix t (t ++ b) = true.
Proof.
  induction t as [ | x t IH]; cbn.
  - destruct b; reflexivity.
  - destruct (ascii_dec x x) as [_ | Hne]; [exact IH | contradiction].
Qed.

Lemma str_contains_unfold (haystack needle : string) :
  str_contains haystack needle =
  if String.prefix needle haystack then true
  else match haystack with
       | EmptyString => false
       | String _ rest => str_contains rest needle
       end.
Proof. destruct haystack; reflexivity. Qed.

Lemma str_contains_append (a t b : string) : str_contains (a ++ t ++ b) t = true.
Proof.
  induction a as [ | x a IH]; rewrite str_contains_unfold.
  - cbn [append]. rewrite prefix_append. reflexivity.
  - cbn [append]. rewrite IH. destruct (String.prefix t _); reflexivity.
Qed.

Lemma str_contains_suffix (a t : string) : str_contains (a ++ t) t = true.
Proof. rewrite <- (append_nil_r t) at 1. apply str_contains_append. Qed.

End StringFacts.

(** * Properties of the weather service *)

Module WeatherServiceSpec.
Import Py Requests WeatherService Vocabulary StringFacts.

(** Case analysis on the innermost scrutinee of the goal. *)
Ltac step_match :=
  match goal with
  | |- context [match ?x with _ => _ end] =>
      lazymatch x with
      | context [match _ with _ => _ end] => fail
      | _ => destruct x eqn:?
      end
  end.

Ltac run_fetch :=
  unfold fetch_weather, try_except, requests_get, lift, raise; cbn;
  repeat (step_match; cbn).

Lemma unknown_outside_table (code : Z) :
  ~ In code known_codes -> interpret_weather_code code = UNKNOWN.
Proof.
  intros H. unfold interpret_weather_code, dict_get, WMO_CODE_MAP. cbn [assoc].
  repeat match goal with
         | |- context [Z.eqb code ?k] =>
             destruct (Z.eqb_spec code k) as [-> | _];
             [ exfalso; apply H; unfold known_codes; cbn [In]; tauto | ]
         end.
  reflexivity.
Qed.

(** C4: [interpret_weather_code] is a function on all of [Z] that follows
    the table: 0 and 1 are Clear, 2 Partly Cloudy, 3 Overcast, 45 and 48
    Fog, 51 to 57 Drizzle, the 60s and 80 to 82 Rain, the 70s and 85, 86
    Snow, 95, 96, 99 Thunderstorm, and every other code, every negative
    one among them, is Unknown. *)
Theorem interpret_weather_code_table :
  Forall (fun code => interpret_weather_code code = CLEAR) [0; 1] /\
  Forall (fun code => interpret_weather_code code = PARTLY_CLOUDY) [2] /\
  Forall (fun code => interpret_weather_code code = OVERCAST) [3] /\
  Forall (fun code => interpret_weather_code code = FOG) [45; 48] /\
  Forall (fun code => interpret_weather_code code = DRIZZLE) [51; 53; 55; 56; 57] /\
  Forall (fun code => interpret_weather_code code = RAIN) [61; 63; 65; 66; 67; 80; 81; 82] /\
  Forall (fun code => interpret_weather_code code = SNOW) [71; 73; 75; 77; 85; 86] /\
  Forall (fun code => interpret_weather_code code = THUNDERSTORM) [95; 96; 99] /\
  (forall code, ~ In code known_codes -> interpret_weather_code code = UNKNOWN) /\
  (forall code, code < 0 -> interpret_weather_code code = UNKNOWN).
Proof.
  repeat (split; [solve [repeat constructor] | ]).
  split.
  - exact unknown_outside_table.
  - intros code Hneg. apply unknown_outside_table.
    unfold known_codes. cbn [In]. lia.
Qed.

Lemma interpret_weather_code_table_witness :
  interpret_weather_code 999 = UNKNOWN /\ interpret_weather_code (-1) = UNKNOWN.
Proof.
  destruct interpret_weather_code_table
    as (_ & _ & _ & _ & _ & _ & _ & _ & Hother & Hneg).
  split.
  - apply Hother. unfold known_codes. cbn [In]. lia.
  - apply Hneg. lia.
Defined.

Section Service.
Context {parsers : StrParsers} {net : Network}.

Lemma fetch_weather_sent (c : Countries.Country) (s : State) :
  sent (snd (fetch_weather c s)) = (sent s ++ [request_of c])%list.
Proof. run_fetch; reflexivity. Qed.

Lemma fetch_weather_world (c : Countries.Country) (s : State) :
  world (snd (fetch_weather c s)) = snd (http_get (request_of c) (world s)).
Proof.
  run_fetch;
    match goal with
    | H : http_get _ _ = _ |- _ => unfold request_of; rewrite H; reflexivity
    end.
Qed.

Lemma fetch_weather_derives_fahrenheit (c : Countries.Country) (s : State) (r : WeatherData) :
  fst (fetch_weather c s) = Return r ->
  temperature_fahrenheit r = celsius_to_fahrenheit (temperature_celsius r).
Proof.
  run_fetch; intros H; try discriminate H.
  all: injection H as <-; reflexivity.
Qed.

(** C5: the conversion is [c * 9 / 5 + 32] in the arithmetic of floats, it
    takes 0 to 32, 100 to 212 and -40 to -40, and the Fahrenheit field of
    every reading that [fetch_weather] returns is the conversion of its
    Celsius field. *)
Theorem fahrenheit_is_derived :
  (forall c : float, celsius_to_fahrenheit c = (c * 9 / 5 + 32)%float) /\
  celsius_to_fahrenheit 0 = 32%float /\
  celsius_to_fahrenheit 100 = 212%float /\
  celsius_to_fahrenheit (-40) = (-40)%float /\
  (forall (c : Countries.Country) (s : State) (r : WeatherData),
      fst (fetch_weather c s) = Return r ->
      temperature_fahrenheit r = celsius_to_fahrenheit (temperature_celsius r)).
Proof.
  repeat split; try reflexivity.
  exact fetch_weather_derives_fahrenheit.
Qed.

(** C6: on the empty list the batch returns the empty list under every
    policy and leaves the state as it was: no request is sent. *)
Theorem batch_of_nothing (on_error : string) (s : State) :
  fetch_weather_batch [] on_error s = (Return [], s).
Proof. reflexivity. Qed.

(** C8: whatever the answer, a call of [fetch_weather] adds exactly one
    request to those sent: to the fixed URL, with the country's latitude
    and longitude, the four fields joined by commas, and a timeout of 10
    seconds.  Nothing is remembered between calls and nothing is sent
    twice: a second call for the same country sends the request again. *)
Theorem one_request_per_fetch (c : Countries.Country) (s : State) :
  sent (snd (fetch_weather c s)) =
    (sent s ++
       [ {| url := "https://api.open-meteo.com/v1/forecast";
            params :=
              [ ("latitude", PFloat (Countries.latitude c));
                ("longitude", PFloat (Countries.longitude c));
                ("current",
                 PStr "temperature_2m,relative_humidity_2m,weather_code,wind_speed_10m") ];
            timeout := 10 |} ])%list /\
  sent (snd (fetch_weather c (snd (fetch_weather c s)))) =
    (sent s ++ [request_of c; request_of c])%list.
Proof.
  split.
  - apply fetch_weather_sent.
  - rewrite !fetch_weather_sent, <- app_assoc. reflexivity.
Qed.

(** *** The batch loop, one country at a time *)

#[local] Arguments fetch_weather : simpl never.

Lemma batch_loop_step (on_error : string) (c : Countries.Country)
    (rest : list Countries.Country) (results : list WeatherData) (s : State) :
  batch_loop on_error (c :: rest) results s =
  match fetch_weather c s with
  | (Return w, s1) => batch_loop on_error rest (results ++ [w])%list s1
  | (Raise e, s1) =>
      if isinstance e WeatherServiceError
      then if on_error =? "raise" then (Raise e, s1)
           else batch_loop on_error rest results s1
      else (Raise e, s1)
  end.
Proof.
  cbn [batch_loop]. unfold try_except, raise. cbn.
  destruct (fetch_weather c s) as [[w | e] s1]; cbn; [reflexivity | ].
  rewrite orb_false_r.
  destruct (isinstance e WeatherServiceError); [ | reflexivity].
  destruct (on_error =? "raise"); reflexivity.
Qed.

Lemma batch_loop_other_policy (on_error : string) :
  (on_error =? "raise") = false ->
  forall countries results s,
    batch_loop on_error countries results s = batch_loop "skip" countries results s.
Proof.
  intros Hpolicy countries.
  induction countries as [ | c rest IH]; intros results s; [reflexivity | ].
  rewrite !batch_loop_step, Hpolicy.
  change ("skip" =? "raise") with false.
  destruct (fetch_weather c s) as [[w | e] s1]; [apply IH | ].
  destruct (isinstance e WeatherServiceError); [apply IH | reflexivity].
Qed.

Lemma batch_loop_skip (countries : list Countries.Country) :
  forall results s,
    forallb reading_or_service_error (fst (fetch_each countries s)) = true ->
    batch_loop "skip" countries results s =
    (Return (results ++ readings (fst (fetch_each countries s)))%list,
     snd (fetch_each countries s)).
Proof.
  induction countries as [ | c rest IH]; intros results s Hall.
  - cbn. rewrite app_nil_r. reflexivity.
  - rewrite batch_loop_step. change ("skip" =? "raise") with false.
    cbn [fetch_each] in *.
    destruct (fetch_weather c s) as [[w | e] s1];
      destruct (fetch_each rest s1) as [os s2] eqn:Hrest;
      cbn [fst snd forallb reading_or_service_error readings] in *.
    + rewrite IH by (rewrite Hrest; exact Hall).
      rewrite Hrest, <- app_assoc. reflexivity.
    + apply andb_prop in Hall as [He Hos]. rewrite He.
      rewrite IH by (rewrite Hrest; exact Hos).
      rewrite Hrest. reflexivity.
Qed.

Lemma batch_loop_skip_raises (countries : list Countries.Country) :
  forall results s e,
    fst (batch_loop "skip" countries results s) = Raise e ->
    isinstance e WeatherServiceError = false.
Proof.
  induction countries as [ | c rest IH]; intros results s e; [discriminate | ].
  rewrite batch_loop_step. change ("skip" =? "raise") with false.
  destruct (fetch_weather c s) as [[w | e'] s1]; [apply IH | ].
  destruct (isinstance e' WeatherServiceError) eqn:He'; [apply IH | ].
  cbn. intros [= ->]. exact He'.
Qed.

Lemma fetch_each_sent (countries : list Countries.Country) :
  forall s,
    sent (snd (fetch_each countries s)) = (sent s ++ map request_of countries)%list.
Proof.
  induction countries as [ | c rest IH]; intros s; cbn [fetch_each map].
  - cbn. rewrite app_nil_r. reflexivity.
  - destruct (fetch_weather c s) as [o s1] eqn:Hc.
    destruct (fetch_each rest s1) as [os s2] eqn:Hrest. cbn [snd].
    change s2 with (snd (os, s2)). rewrite <- Hrest, IH.
    change s1 with (snd (o, s1)). rewrite <- Hc, fetch_weather_sent, <- app_assoc.
    reflexivity.
Qed.

Lemma first_failure (countries : list Countries.Country) :
  forall s,
    existsb failed (fst (fetch_each countries s)) = true ->
    exists pre c post ws s1 e s2,
      countries = (pre ++ c :: post)%list /\
      fetch_each pre s = (map Return ws, s1) /\
      fetch_weather c s1 = (Raise e, s2).
Proof.
  induction countries as [ | c rest IH]; intros s Hex; [discriminate | ].
  cbn [fetch_each] in Hex.
  destruct (fetch_weather c s) as [[w | e] s1] eqn:Hc.
  - destruct (fetch_each rest s1) as [os s2] eqn:Hrest. cbn in Hex.
    destruct (IH s1) as (pre & c' & post & ws & s1' & e & s2' & -> & Hpre & Hfail).
    { rewrite Hrest. exact Hex. }
    exists (c :: pre), c', post, (w :: ws), s1', e, s2'.
    split; [reflexivity | ]. split; [ | exact Hfail].
    cbn [fetch_each]. rewrite Hc, Hpre. reflexivity.
  - exists [], c, rest, [], s, e, s1. repeat split. exact Hc.
Qed.

Lemma batch_loop_raise_prefix (pre : list Countries.Country) :
  forall results s ws s1,
    fetch_each pre s = (map Return ws, s1) ->
    forall c post e s2,
      fetch_weather c s1 = (Raise e, s2) ->
      batch_loop "raise" (pre ++ c :: post) results s = (Raise e, s2).
Proof.
  induction pre as [ | p pre IH]; intros results s ws s1 Hpre c post e s2 Hc.
  - cbn in Hpre. injection Hpre as _ <-.
    cbn [app]. rewrite batch_loop_step, Hc.
    change ("raise" =? "raise") with true.
    destruct (isinstance e WeatherServiceError); reflexivity.
  - cbn [fetch_each] in Hpre.
    destruct (fetch_weather p s) as [o s'] eqn:Hp.
    destruct (fetch_each pre s') as [os s''] eqn:Hrest.
    destruct ws as [ | w ws]; [discriminate | ].
    cbn [map] in Hpre. injection Hpre as -> -> ->.
    cbn [app]. rewrite batch_loop_step, Hp.
    eapply IH; eassumption.
Qed.

(** C9: the policy is only ever compared with ["raise"]; under any other
    string, ["RAISE"], ["Skip"] and the empty string among them, the batch
    is the batch under ["skip"], outcome and state alike. *)
Theorem unrecognised_policy_skips (on_error : string)
    (countries : list Countries.Country) (s : State) :
  on_error <> "raise" ->
  fetch_weather_batch countries on_error s = fetch_weather_batch countries "skip" s.
Proof.
  intros Hne. unfold fetch_weather_batch.
  apply batch_loop_other_policy. apply String.eqb_neq. exact Hne.
Qed.

(** C1, as the code has it: under ["skip"] the batch never ends in a
    [WeatherServiceError], and when no fetch ends in an exception of
    another class it returns exactly the readings of the fetches that
    succeed, in input order, a failed fetch adding nothing. *)
Theorem batch_skip_collects_readings (countries : list Countries.Country) (s : State) :
  (forall e,
      fst (fetch_weather_batch countries "skip" s) = Raise e ->
      isinstance e WeatherServiceError = false) /\
  (forallb reading_or_service_error (fst (fetch_each countries s)) = true ->
   fetch_weather_batch countries "skip" s =
   (Return (readings (fst (fetch_each countries s))), snd (fetch_each countries s))).
Proof.
  split.
  - intros e. apply batch_loop_skip_raises.
  - intros Hall. unfold fetch_weather_batch.
    rewrite batch_loop_skip by exact Hall. reflexivity.
Qed.

(** C2: under ["raise"], when some fetch fails the batch ends in the
    exception of the first fetch that fails, the very object that
    [fetch_weather] raised, in the state that fetch left: the countries
    before it were fetched, those after it were not, and the caller gets
    no list. *)
Theorem batch_raise_stops_at_first_failure (countries : list Countries.Country) (s : State) :
  existsb failed (fst (fetch_each countries s)) = true ->
  exists pre c post ws s1 e s2,
    countries = (pre ++ c :: post)%list /\
    fetch_each pre s = (map Return ws, s1) /\
    fetch_weather c s1 = (Raise e, s2) /\
    fetch_weather_batch countries "raise" s = (Raise e, s2) /\
    sent s2 = (sent s ++ map request_of pre ++ [request_of c])%list.
Proof.
  intros Hex.
  destruct (first_failure countries s Hex)
    as (pre & c & post & ws & s1 & e & s2 & -> & Hpre & Hc).
  exists pre, c, post, ws, s1, e, s2.
  repeat split; try assumption.
  - unfold fetch_weather_batch. eapply batch_loop_raise_prefix; eassumption.
  - change s2 with (snd (@Raise WeatherData e, s2)).
    rewrite <- Hc, fetch_weather_sent.
    change s1 with (snd (map (@Return WeatherData) ws, s1)).
    rewrite <- Hpre, fetch_each_sent, <- app_assoc. reflexivity.
Qed.

(** *** Failures of the transport and of the body *)

Lemma fetch_transport_failure (c : Countries.Country) (s : State) (e : exn) :
  transport_failure c s e ->
  fst (fetch_weather c s) =
  Raise (Exn WeatherServiceError
           ("Failed to fetch weather for " ++ Countries.name c
              ++ " (" ++ Countries.capital c ++ "): " ++ exn_str e)
           (Some e)).
Proof.
  intros [Hclass Hwhere]. unfold request_of in Hwhere.
  unfold fetch_weather, try_except, requests_get, lift, raise. cbn.
  destruct (http_get _ (world s)) as [ans w]. cbn [fst] in Hwhere.
  destruct Hwhere as [-> | (response & -> & Hstatus)]; cbn.
  - rewrite Hclass. reflexivity.
  - rewrite Hstatus. cbn. rewrite Hclass. reflexivity.
Qed.

Lemma fetch_body_failure (c : Countries.Country) (s : State) (e : exn) :
  body_failure c s e ->
  fst (fetch_weather c s) =
  Raise (Exn WeatherServiceError
           ("Invalid response for " ++ Countries.name c
              ++ " (" ++ Countries.capital c ++ "): " ++ exn_str e)
           (Some e)).
Proof.
  intros (response & Hget & Hstatus & Hbody). unfold request_of in Hget.
  unfold fetch_weather, try_except, requests_get, lift, raise. cbn.
  destruct (http_get _ (world s)) as [ans w]. cbn [fst] in Hget. subst ans.
  cbn. rewrite Hstatus. cbn.
  destruct Hbody as [[Hclass ->] | (Hclass & data & -> & ->)]; cbn;
    rewrite Hclass, ?orb_true_r; reflexivity.
Qed.

(** The reads of the four fields stand after the two [try] blocks: a
    [current] object without [temperature_2m] ends the fetch in the
    [KeyError] of the subscript. *)
Lemma missing_temperature_raises_KeyError (c : Countries.Country) (s : State)
    (response : Response) (data : pyval) (fields : list (string * pyval)) :
  fst (http_get (request_of c) (world s)) = Return response ->
  raise_for_status response = Return tt ->
  json response = Return data ->
  getitem data "current" = Return (PDict fields) ->
  assoc String.eqb "temperature_2m" fields = None ->
  fst (fetch_weather c s) = Raise (Exn KeyError "'temperature_2m'" None).
Proof.
  intros Hget Hstatus Hjson Hcurrent Hmissing. unfold request_of in Hget.
  unfold fetch_weather, try_except, requests_get, lift, raise. cbn.
  destruct (http_get _ (world s)) as [ans w]. cbn [fst] in Hget. subst ans.
  cbn. rewrite Hstatus. cbn. rewrite Hjson. cbn. rewrite Hcurrent. cbn.
  rewrite Hmissing. reflexivity.
Qed.

Lemma message_names_location (intro : string) (c : Countries.Country) (cause : string) :
  let msg := intro ++ Countries.name c ++ " (" ++ Countries.capital c ++ "): " ++ cause in
  str_contains msg (Countries.name c) = true /\
  str_contains msg (Countries.capital c) = true /\
  str_contains msg cause = true.
Proof.
  cbv zeta. repeat split.
  - apply str_contains_append.
  - rewrite <- (append_assoc (Countries.name c)), <- (append_assoc intro).
    apply str_contains_append.
  - rewrite <- (append_assoc (Countries.capital c)), <- (append_assoc " ("),
      <- (append_assoc (Countries.name c)), <- (append_assoc intro).
    apply str_contains_suffix.
Qed.

(** C7: when the transport fails ([requests.get] or [raise_for_status]
    raises a [RequestException]) or the body does not parse, the fetch ends
    in a [WeatherServiceError] caused by that exception, whose message
    contains the country's name, its capital and the text of the cause. *)
Theorem failure_message_names_location (c : Countries.Country) (s : State) (e : exn) :
  transport_failure c s e \/ body_failure c s e ->
  exists msg,
    fst (fetch_weather c s) = Raise (Exn WeatherServiceError msg (Some e)) /\
    str_contains msg (Countries.name c) = true /\
    str_contains msg (Countries.capital c) = true /\
    str_contains msg (exn_str e) = true.
Proof.
  intros [H | H]; eexists; (split; [ | apply message_names_location]).
  - apply fetch_transport_failure. exact H.
  - apply fetch_body_failure. exact H.
Qed.

End Service.

End WeatherServiceSpec.

(** * The order of floats *)

Module FloatFacts.
Import Py.

(** The comparison of two decoded floats is decided by their kinds, their
    signs, and then their exponents and mantissas. *)
Ltac sf_cases :=
  unfold SFleb, SFltb, SFcompare;
  repeat match goal with
         | x : spec_float |- _ => destruct x as [[ | ] | [ | ] | | [ | ] ? ?]
         end;
  cbn; try discriminate; try reflexivity;
  change (Pos.compare_cont Eq) with Pos.compare;
  repeat match goal with
         | |- context [Z.compare ?a ?b] => destruct (Z.compare_spec a b)
         | |- context [Pos.compare ?a ?b] => destruct (Pos.compare_spec a b)
         end;
  cbn; try discriminate; try reflexivity; try lia.

Lemma SFleb_refl (x : spec_float) : sf_is_nan x = false -> SFleb x x = true.
Proof. sf_cases. Qed.

Lemma SFleb_total (x y : spec_float) :
  sf_is_nan x = false -> sf_is_nan y = false -> SFltb x y = false -> SFleb y x = true.
Proof. sf_cases. Qed.

Lemma SFleb_ltb_trans (x y z : spec_float) :
  SFleb x y = true -> SFltb y z = true -> SFleb x z = true.
Proof. sf_cases. Qed.

Lemma SFltb_leb_trans (x y z : spec_float) :
  SFltb x y = true -> SFleb y z = true -> SFleb x z = true.
Proof. sf_cases. Qed.

Lemma float_le_refl (a : float) : is_nan a = false -> float_le a a = true.
Proof. apply SFleb_refl. Qed.

Lemma float_le_total (a b : float) :
  is_nan a = false -> is_nan b = false -> float_lt a b = false -> float_le b a = true.
Proof. apply SFleb_total. Qed.

Lemma float_le_lt_trans (a b c : float) :
  float_le a b = true -> float_lt b c = true -> float_le a c = true.
Proof. apply SFleb_ltb_trans. Qed.

Lemma float_lt_le_trans (a b c : float) :
  float_lt a b = true -> float_le b c = true -> float_le a c = true.
Proof. apply SFltb_leb_trans. Qed.

End FloatFacts.

(** * Properties of the report extremes *)

Module ReportSpec.
Import Py WeatherService Report Vocabulary FloatFacts.

Section BestBy.
Variables A K : Type.
Variable better : K -> K -> bool.
Variable key : A -> K.
(** [no_better a b]: an item of key [a] is no better than one of key [b]. *)
Variable no_better : K -> K -> Prop.
Variable usable : K -> Prop.
Hypothesis no_better_refl : forall a, usable a -> no_better a a.
Hypothesis kept :
  forall a b, usable a -> usable b -> better b a = false -> no_better b a.
Hypothesis replaced :
  forall w a b, no_better w a -> better b a = true -> no_better w b.

(** The loop of [max] and [min]: the current item is among those seen and
    none of them is better. *)
Lemma best_by_invariant (rest : list A) :
  forall (current : A) (seen : list A),
    In current seen ->
    (forall w, In w seen -> no_better (key w) (key current)) ->
    (forall w, In w (seen ++ rest) -> usable (key w)) ->
    In (best_by better key current rest) (seen ++ rest) /\
    forall w, In w (seen ++ rest) ->
              no_better (key w) (key (best_by better key current rest)).
Proof.
  induction rest as [ | item rest IH]; intros current seen Hin Hseen Husable.
  - rewrite app_nil_r. cbn. split; assumption.
  - replace (seen ++ item :: rest)%list with ((seen ++ [item]) ++ rest)%list in *
      by (rewrite <- app_assoc; reflexivity).
    unfold best_by. cbn [fold_left]. fold (best_by better key).
    assert (Hitem : usable (key item)).
    { apply Husable. apply in_or_app. left. apply in_or_app. right. left. reflexivity. }
    assert (Hcur : usable (key current)).
    { apply Husable. apply in_or_app. left. apply in_or_app. left. exact Hin. }
    destruct (better (key item) (key current)) eqn:Hcmp.
    + apply IH; [ | | exact Husable].
      * apply in_or_app. right. left. reflexivity.
      * intros w Hw. apply in_app_or in Hw as [Hw | [<- | []]].
        -- eapply replaced; [apply Hseen; exact Hw | exact Hcmp].
        -- apply no_better_refl. exact Hitem.
    + apply IH; [ | | exact Husable].
      * apply in_or_app. left. exact Hin.
      * intros w Hw. apply in_app_or in Hw as [Hw | [<- | []]].
        -- apply Hseen. exact Hw.
        -- apply kept; assumption.
Qed.

Lemma best_by_best (first : A) (rest : list A) :
  (forall w, In w (first :: rest) -> usable (key w)) ->
  In (best_by better key first rest) (first :: rest) /\
  forall w, In w (first :: rest) ->
            no_better (key w) (key (best_by better key first rest)).
Proof.
  intros Husable.
  apply (best_by_invariant rest first [first]).
  - left. reflexivity.
  - intros w [<- | []]. apply no_better_refl. apply Husable. left. reflexivity.
  - exact Husable.
Qed.

End BestBy.

Lemma max_float_attains (key : WeatherData -> float) (first : WeatherData)
    (rest : list WeatherData) :
  no_nan key (first :: rest) ->
  attains_max float_le_prop key (first :: rest) (best_by float_gt key first rest).
Proof.
  intros Hnan.
  apply (best_by_best _ _ float_gt key float_le_prop (fun a => is_nan a = false)).
  - exact float_le_refl.
  - intros a b Ha Hb. apply float_le_total; assumption.
  - intros w a b. unfold float_gt. apply float_le_lt_trans.
  - exact Hnan.
Qed.

Lemma min_float_attains (key : WeatherData -> float) (first : WeatherData)
    (rest : list WeatherData) :
  no_nan key (first :: rest) ->
  attains_min float_le_prop key (first :: rest) (best_by float_lt key first rest).
Proof.
  intros Hnan.
  apply (best_by_best _ _ float_lt key (fun a b => float_le_prop b a)
                      (fun a => is_nan a = false)).
  - exact float_le_refl.
  - intros a b Ha Hb. apply float_le_total; assumption.
  - intros w a b Hle Hlt. eapply float_lt_le_trans; eassumption.
  - exact Hnan.
Qed.

Lemma max_int_attains (key : WeatherData -> Z) (first : WeatherData)
    (rest : list WeatherData) :
  attains_max Z.le key (first :: rest) (best_by Z.gtb key first rest).
Proof.
  apply (best_by_best _ _ Z.gtb key Z.le (fun _ => True)).
  - intros a _. lia.
  - intros a b _ _ H. rewrite Z.gtb_ltb in H. apply Z.ltb_ge in H. exact H.
  - intros w a b Hle H. rewrite Z.gtb_ltb in H. apply Z.ltb_lt in H. lia.
  - intros w _. exact I.
Qed.

Lemma best_by_in {A K : Type} (better : K -> K -> bool) (key : A -> K)
    (first : A) (rest : list A) :
  In (best_by better key first rest) (first :: rest).
Proof.
  apply (best_by_best _ _ better key (fun _ _ => True) (fun _ => True)); auto.
Qed.

(** C10, as the code has it: on the empty list [find_extremes] returns the
    four keys with [None] and does not raise; on a non-empty list it
    returns under the four keys items of the list, [most_humid] of the
    greatest humidity, [hottest] and [coldest] of the greatest and least
    temperature when no temperature in the list is NaN, and [windiest] of
    the greatest wind speed when no wind speed in the list is NaN. *)
Theorem find_extremes_attains :
  find_extremes [] =
    Return [ ("hottest", None); ("coldest", None);
             ("most_humid", None); ("windiest", None) ] /\
  forall weather_list : list WeatherData,
    weather_list <> [] ->
    exists hottest coldest most_humid windiest,
      find_extremes weather_list =
        Return [ ("hottest", Some hottest); ("coldest", Some coldest);
                 ("most_humid", Some most_humid); ("windiest", Some windiest) ] /\
      In hottest weather_list /\
      In coldest weather_list /\
      In windiest weather_list /\
      attains_max Z.le humidity weather_list most_humid /\
      (no_nan temperature_celsius weather_list ->
       attains_max float_le_prop temperature_celsius weather_list hottest /\
       attains_min float_le_prop temperature_celsius weather_list coldest) /\
      (no_nan wind_speed_kmh weather_list ->
       attains_max float_le_prop wind_speed_kmh weather_list windiest).
Proof.
  split; [reflexivity | ].
  intros [ | first rest] Hne; [contradiction | ].
  eexists _, _, _, _. split; [reflexivity | ].
  split; [apply best_by_in | ].
  split; [apply best_by_in | ].
  split; [apply best_by_in | ].
  split; [apply max_int_attains | ].
  split.
  - intros Hnan. split; [apply max_float_attains | apply min_float_attains]; exact Hnan.
  - apply max_float_attains.
Qed.

End ReportSpec.

(** * The properties at the fixtures *)

Module Examples.
Import Py Requests WeatherService Report Vocabulary Fixtures.
Import WeatherServiceSpec ReportSpec.

#[local] Existing Instance no_numeric_strings.
#[local] Existing Instance scripted.

Lemma fahrenheit_is_derived_witness :
  fst (fetch_weather SAMPLE_COUNTRY (start [ok SAMPLE_API_RESPONSE])) = Return SAMPLE_WEATHER /\
  temperature_fahrenheit SAMPLE_WEATHER =
    celsius_to_fahrenheit (temperature_celsius SAMPLE_WEATHER).
Proof.
  split; [reflexivity | ].
  destruct (@fahrenheit_is_derived no_numeric_strings scripted)
    as (_ & _ & _ & _ & Hderived).
  apply (Hderived SAMPLE_COUNTRY (start [ok SAMPLE_API_RESPONSE])).
  reflexivity.
Defined.

Lemma unrecognised_policy_skips_witness :
  "RAISE" <> "raise" /\
  fetch_weather_batch [SAMPLE_COUNTRY; OTHER_COUNTRY] "RAISE"
    (start [network_error; ok SAMPLE_API_RESPONSE]) =
  fetch_weather_batch [SAMPLE_COUNTRY; OTHER_COUNTRY] "skip"
    (start [network_error; ok SAMPLE_API_RESPONSE]).
Proof.
  split.
  - apply String.eqb_neq. reflexivity.
  - apply unrecognised_policy_skips. apply String.eqb_neq. reflexivity.
Defined.

Lemma batch_skip_collects_readings_witness :
  forallb reading_or_service_error
    (fst (fetch_each [SAMPLE_COUNTRY; OTHER_COUNTRY]
            (start [ok SAMPLE_API_RESPONSE; network_error]))) = true /\
  fst (fetch_weather_batch [SAMPLE_COUNTRY; OTHER_COUNTRY] "skip"
         (start [ok SAMPLE_API_RESPONSE; network_error])) = Return [SAMPLE_WEATHER].
Proof.
  split; [reflexivity | ].
  destruct (batch_skip_collects_readings [SAMPLE_COUNTRY; OTHER_COUNTRY]
              (start [ok SAMPLE_API_RESPONSE; network_error])) as [_ Hreadings].
  rewrite Hreadings; reflexivity.
Defined.

(** Under ["skip"], a second country whose answer lacks [temperature_2m]
    ends the batch in a [KeyError]: the call raises and the reading of the
    first country is lost. *)
Lemma batch_skip_can_raise :
  fst (fetch_weather_batch [SAMPLE_COUNTRY; OTHER_COUNTRY] "skip"
         (start [ok SAMPLE_API_RESPONSE; ok NO_TEMPERATURE_RESPONSE])) =
    Raise (Exn KeyError "'temperature_2m'" None) /\
  ~ exists readings,
      fst (fetch_weather_batch [SAMPLE_COUNTRY; OTHER_COUNTRY] "skip"
             (start [ok SAMPLE_API_RESPONSE; ok NO_TEMPERATURE_RESPONSE])) =
        Return readings.
Proof.
  split; [reflexivity | ].
  intros [readings H]. vm_compute in H. discriminate H.
Qed.

Lemma batch_raise_stops_at_first_failure_witness :
  existsb failed
    (fst (fetch_each [SAMPLE_COUNTRY; OTHER_COUNTRY; SAMPLE_COUNTRY]
            (start [ok SAMPLE_API_RESPONSE; network_error; ok SAMPLE_API_RESPONSE]))) = true /\
  exists pre c post ws s1 e s2,
    [SAMPLE_COUNTRY; OTHER_COUNTRY; SAMPLE_COUNTRY] = (pre ++ c :: post)%list /\
    fetch_each pre (start [ok SAMPLE_API_RESPONSE; network_error; ok SAMPLE_API_RESPONSE]) =
      (map Return ws, s1) /\
    fetch_weather c s1 = (Raise e, s2) /\
    fetch_weather_batch [SAMPLE_COUNTRY; OTHER_COUNTRY; SAMPLE_COUNTRY] "raise"
      (start [ok SAMPLE_API_RESPONSE; network_error; ok SAMPLE_API_RESPONSE]) = (Raise e, s2) /\
    sent s2 =
      (sent (start [ok SAMPLE_API_RESPONSE; network_error; ok SAMPLE_API_RESPONSE])
         ++ map request_of pre ++ [request_of c])%list.
Proof.
  split; [reflexivity | ].
  apply batch_raise_stops_at_first_failure. reflexivity.
Defined.

Lemma failure_message_names_location_witness :
  transport_failure SAMPLE_COUNTRY (start [network_error])
    (Exn ConnectionError "Network error" None) /\
  exists msg,
    fst (fetch_weather SAMPLE_COUNTRY (start [network_error])) =
      Raise (Exn WeatherServiceError msg (Some (Exn ConnectionError "Network error" None))) /\
    str_contains msg "TestLand" = true /\
    str_contains msg "TestCity" = true /\
    str_contains msg "Network error" = true.
Proof.
  assert (H : transport_failure SAMPLE_COUNTRY (start [network_error])
                (Exn ConnectionError "Network error" None)).
  { split; [reflexivity | left; reflexivity]. }
  split; [exact H | ].
  apply (failure_message_names_location SAMPLE_COUNTRY (start [network_error])
           (Exn ConnectionError "Network error" None)).
  left. exact H.
Defined.

(** C3, at two answers: a [current] object without [temperature_2m] ends
    the fetch in a [KeyError] and a [null] weather code in a [TypeError],
    neither of them a [WeatherServiceError]. *)
Theorem malformed_field_escapes :
  fst (fetch_weather SAMPLE_COUNTRY (start [ok NO_TEMPERATURE_RESPONSE])) =
    Raise (Exn KeyError "'temperature_2m'" None) /\
  (exists msg,
      fst (fetch_weather SAMPLE_COUNTRY (start [ok NULL_CODE_RESPONSE])) =
        Raise (Exn TypeError msg None)) /\
  isinstance (Exn KeyError "'temperature_2m'" None) WeatherServiceError = false /\
  (forall msg, isinstance (Exn TypeError msg None) WeatherServiceError = false).
Proof.
  split; [reflexivity | ].
  split; [eexists; reflexivity | ].
  split; [reflexivity | intros msg; reflexivity].
Qed.

Lemma no_nan_three_readings (key : WeatherData -> float) :
  key = temperature_celsius \/ key = wind_speed_kmh ->
  no_nan key THREE_READINGS.
Proof.
  intros [-> | ->] w [<- | [<- | [<- | []]]]; reflexivity.
Qed.

Lemma find_extremes_attains_witness :
  THREE_READINGS <> [] /\
  no_nan temperature_celsius THREE_READINGS /\
  no_nan wind_speed_kmh THREE_READINGS /\
  exists hottest coldest most_humid windiest,
    find_extremes THREE_READINGS =
      Return [ ("hottest", Some hottest); ("coldest", Some coldest);
               ("most_humid", Some most_humid); ("windiest", Some windiest) ] /\
    attains_max float_le_prop temperature_celsius THREE_READINGS hottest /\
    attains_min float_le_prop temperature_celsius THREE_READINGS coldest /\
    attains_max Z.le humidity THREE_READINGS most_humid /\
    attains_max float_le_prop wind_speed_kmh THREE_READINGS windiest.
Proof.
  assert (Hne : THREE_READINGS <> []) by (intros H; discriminate H).
  assert (Htemp := no_nan_three_readings temperature_celsius (or_introl eq_refl)).
  assert (Hwind := no_nan_three_readings wind_speed_kmh (or_intror eq_refl)).
  split; [exact Hne | ]. split; [exact Htemp | ]. split; [exact Hwind | ].
  destruct find_extremes_attains as [_ Hlist].
  destruct (Hlist THREE_READINGS Hne)
    as (hottest & coldest & most_humid & windiest
        & Hdict & _ & _ & _ & Hhumid & Htemps & Hwinds).
  exists hottest, coldest, most_humid, windiest.
  split; [exact Hdict | ].
  split; [apply Htemps; exact Htemp | ].
  split; [apply Htemps; exact Htemp | ].
  split; [exact Hhumid | apply Hwinds; exact Hwind].
Defined.

(** With a NaN temperature first, [hottest] is the reading with the NaN,
    which the reading of 2 degrees is not below. *)
Lemma find_extremes_nan_first :
  find_extremes NAN_FIRST =
    Return [ ("hottest", Some (reading "b" nan 7 2%float));
             ("coldest", Some (reading "b" nan 7 2%float));
             ("most_humid", Some (reading "b" nan 7 2%float));
             ("windiest", Some (reading "c" 2%float 7 9%float)) ] /\
  ~ exists d, find_extremes NAN_FIRST = Return d /\ extremes_of NAN_FIRST d.
Proof.
  split; [reflexivity | ].
  intros (d & Hd & hottest & coldest & most_humid & windiest
          & -> & [_ Hmax] & _).
  vm_compute in Hd. injection Hd as <- _ _ _.
  specialize (Hmax (reading "c" 2%float 7 9%float) (or_intror (or_introl eq_refl))).
  vm_compute in Hmax. discriminate Hmax.
Qed.

End Examples.

(** * More on the weather service *)

Module WeatherServiceMore.
Import Py Requests WeatherService Vocabulary WeatherServiceSpec.

(** X7: the members of [WeatherCondition] have pairwise distinct values,
    none of them empty. *)
Theorem condition_values_distinct :
  (forall a b, condition_value a = condition_value b -> a = b) /\
  (forall a, condition_value a <> "").
Proof.
  split.
  - intros [] []; cbn; intros H; try reflexivity; discriminate H.
  - intros []; discriminate.
Qed.

Section Service.
Context {parsers : StrParsers} {net : Network}.

Lemma fetch_weather_fields (c : Countries.Country) (s : State) (r : WeatherData) :
  fst (fetch_weather c s) = Return r ->
  country r = Countries.name c /\
  capital r = Countries.capital c /\
  continent r = Countries.continent c /\
  condition r = interpret_weather_code (weather_code r).
Proof.
  run_fetch; intros H; try discriminate H.
  all: injection H as <-; repeat split.
Qed.

(** X1: a reading that [fetch_weather] returns carries the name, the
    capital and the continent of the country it was asked for, and its
    condition is the interpretation of its own weather code. *)
Theorem fetch_weather_labels_reading (c : Countries.Country) (s : State) (r : WeatherData) :
  fst (fetch_weather c s) = Return r ->
  country r = Countries.name c /\
  capital r = Countries.capital c /\
  continent r = Countries.continent c /\
  condition r = interpret_weather_code (weather_code r).
Proof. apply fetch_weather_fields. Qed.

(** X2: on an accepted response whose body is an object with a [current]
    object holding a float temperature, an int humidity, an int weather
    code and a float wind speed, the fetch returns the reading made of
    exactly these values, the Fahrenheit temperature and the condition
    derived from them. *)
Theorem fetch_weather_reads_expected_shape (c : Countries.Country) (s : State)
    (response : Response) (data : pyval) (fields : list (string * pyval))
    (temp wind : float) (hum code : Z) :
  fst (http_get (request_of c) (world s)) = Return response ->
  raise_for_status response = Return tt ->
  json response = Return data ->
  getitem data "current" = Return (PDict fields) ->
  assoc String.eqb "temperature_2m" fields = Some (PFloat temp) ->
  assoc String.eqb "relative_humidity_2m" fields = Some (PInt hum) ->
  assoc String.eqb "weather_code" fields = Some (PInt code) ->
  assoc String.eqb "wind_speed_10m" fields = Some (PFloat wind) ->
  fst (fetch_weather c s) =
  Return {| country := Countries.name c;
            capital := Countries.capital c;
            continent := Countries.continent c;
            temperature_celsius := temp;
            temperature_fahrenheit := celsius_to_fahrenheit temp;
            humidity := hum;
            wind_speed_kmh := wind;
            condition := interpret_weather_code code;
            weather_code := code |}.
Proof.
  intros Hget Hstatus Hjson Hcurrent Htemp Hhum Hcode Hwind.
  unfold request_of in Hget.
  unfold fetch_weather, try_except, requests_get, lift, raise. cbn.
  destruct (http_get _ (world s)) as [ans w]. cbn [fst] in Hget. subst ans.
  cbn. rewrite Hstatus. cbn. rewrite Hjson. cbn. rewrite Hcurrent. cbn.
  rewrite Htemp, Hcode, Hhum, Hwind. reflexivity.
Qed.

(** X3: a body that parses to something other than an object (a list, a
    string, a number, [null]), or whose [current] is not an object, ends
    the fetch in a [TypeError], which neither [try] block catches. *)
Theorem non_object_body_raises_TypeError (c : Countries.Country) (s : State)
    (response : Response) (data : pyval) :
  fst (http_get (request_of c) (world s)) = Return response ->
  raise_for_status response = Return tt ->
  json response = Return data ->
  (not_an_object data = true \/
   exists current, getitem data "current" = Return current /\ not_an_object current = true) ->
  exists msg, fst (fetch_weather c s) = Raise (Exn TypeError msg None).
Proof.
  intros Hget Hstatus Hjson Hshape.
  unfold request_of in Hget.
  unfold fetch_weather, try_except, requests_get, lift, raise. cbn.
  destruct (http_get _ (world s)) as [ans w]. cbn [fst] in Hget. subst ans.
  cbn. rewrite Hstatus. cbn. rewrite Hjson. cbn.
  destruct Hshape as [Hdata | (current & -> & Hcurrent)].
  - destruct data; try discriminate Hdata; cbn; eexists; reflexivity.
  - cbn. destruct current; try discriminate Hcurrent; cbn; eexists; reflexivity.
Qed.

(** *** What a batch that returns has done *)

#[local] Arguments fetch_weather : simpl never.

Lemma fetch_each_length (countries : list Countries.Country) :
  forall s, List.length (fst (fetch_each countries s)) = List.length countries.
Proof.
  induction countries as [ | c rest IH]; intros s; [reflexivity | ].
  cbn [fetch_each]. destruct (fetch_weather c s) as [o s1].
  specialize (IH s1). destruct (fetch_each rest s1) as [os s2].
  cbn in *. rewrite IH. reflexivity.
Qed.

Lemma readings_length (os : list (outcome WeatherData)) :
  (List.length (readings os) <= List.length os)%nat.
Proof.
  induction os as [ | [w | e] os IH]; cbn; lia.
Qed.

Lemma batch_loop_returns (on_error : string) (countries : list Countries.Country) :
  forall results s ws,
    fst (batch_loop on_error countries results s) = Return ws ->
    ws = (results ++ readings (fst (fetch_each countries s)))%list /\
    snd (batch_loop on_error countries results s) = snd (fetch_each countries s).
Proof.
  induction countries as [ | c rest IH]; intros results s ws.
  - cbn. intros [= <-]. rewrite app_nil_r. split; reflexivity.
  - rewrite batch_loop_step. cbn [fetch_each].
    destruct (fetch_weather c s) as [[w | e] s1].
    + intros H. destruct (IH _ _ _ H) as [-> Hstate].
      destruct (fetch_each rest s1) as [os s2]. cbn [fst snd readings] in *.
      rewrite <- app_assoc. split; [reflexivity | exact Hstate].
    + destruct (isinstance e WeatherServiceError); [ | discriminate].
      destruct (on_error =? "raise"); [discriminate | ].
      intros H. destruct (IH _ _ _ H) as [-> Hstate].
      destruct (fetch_each rest s1) as [os s2]. cbn [fst snd readings] in *.
      split; [reflexivity | exact Hstate].
Qed.

Lemma batch_returns_sent (countries : list Countries.Country) (on_error : string)
    (s : State) (ws : list WeatherData) :
  fst (fetch_weather_batch countries on_error s) = Return ws ->
  sent (snd (fetch_weather_batch countries on_error s)) =
    (sent s ++ map request_of countries)%list.
Proof.
  intros H. unfold fetch_weather_batch in *.
  destruct (batch_loop_returns on_error countries [] s ws H) as [_ Hstate].
  rewrite Hstate. apply fetch_each_sent.
Qed.

(** X4: under every policy, a batch that returns has fetched every country
    once, in input order: its list is the readings of the fetches that
    succeeded, in that order and so never longer than the input, and one
    request per country was sent. *)
Theorem batch_that_returns (countries : list Countries.Country) (on_error : string)
    (s : State) (ws : list WeatherData) :
  fst (fetch_weather_batch countries on_error s) = Return ws ->
  ws = readings (fst (fetch_each countries s)) /\
  (List.length ws <= List.length countries)%nat /\
  sent (snd (fetch_weather_batch countries on_error s)) =
    (sent s ++ map request_of countries)%list.
Proof.
  intros H. unfold fetch_weather_batch in *.
  destruct (batch_loop_returns on_error countries [] s ws H) as [-> Hstate].
  cbn [app]. split; [reflexivity | ]. split.
  - rewrite <- (fetch_each_length countries s). apply readings_length.
  - apply (batch_returns_sent countries on_error s _ H).
Qed.

Lemma batch_loop_raise_returns (countries : list Countries.Country) :
  forall results s ws,
    fst (batch_loop "raise" countries results s) = Return (results ++ ws)%list <->
    fst (fetch_each countries s) = map Return ws.
Proof.
  induction countries as [ | c rest IH]; intros results s ws.
  - cbn. split.
    + intros [= H]. rewrite <- (app_nil_r results) in H at 1.
      apply app_inv_head in H. subst ws. reflexivity.
    + destruct ws; [ | discriminate]. rewrite app_nil_r. reflexivity.
  - rewrite batch_loop_step. change ("raise" =? "raise") with true.
    cbn [fetch_each].
    destruct (fetch_weather c s) as [[w | e] s1].
    + specialize (IH (results ++ [w])%list s1).
      destruct (fetch_each rest s1) as [os s2] eqn:Hrest. cbn [fst] in *.
      split.
      * intros H.
        destruct (batch_loop_returns _ _ _ _ _ H) as [Hws _].
        rewrite Hrest in Hws. cbn [fst] in Hws.
        rewrite <- app_assoc in Hws. apply app_inv_head in Hws. cbn in Hws.
        subst ws. cbn [map]. f_equal.
        apply (IH (readings os)). rewrite <- app_assoc. exact H.
      * destruct ws as [ | w' ws]; [discriminate | ].
        cbn [map]. intros [= <- Hos].
        apply IH in Hos. rewrite <- app_assoc in Hos. exact Hos.
    + destruct (fetch_each rest s1) as [os s2]. cbn [fst].
      split.
      * destruct (isinstance e WeatherServiceError); discriminate.
      * destruct ws; discriminate.
Qed.

(** X5: under ["raise"] the batch returns a list exactly when every fetch
    succeeds, and the list then holds the reading of every country, one
    for one. *)
Theorem batch_raise_returns_all (countries : list Countries.Country) (s : State)
    (ws : list WeatherData) :
  fst (fetch_weather_batch countries "raise" s) = Return ws <->
  fst (fetch_each countries s) = map Return ws.
Proof. apply (batch_loop_raise_returns countries [] s ws). Qed.

Lemma readings_come_from_countries (countries : list Countries.Country) :
  forall s,
    subsequence (map country (readings (fst (fetch_each countries s))))
                (map Countries.name countries).
Proof.
  induction countries as [ | c rest IH]; intros s; [constructor | ].
  cbn [fetch_each map].
  destruct (fetch_weather c s) as [[w | e] s1] eqn:Hc.
  - specialize (IH s1). destruct (fetch_each rest s1) as [os s2].
    cbn [fst readings map] in *.
    assert (Hname : country w = Countries.name c).
    { apply (fetch_weather_fields c s w). rewrite Hc. reflexivity. }
    rewrite Hname. apply subsequence_take. exact IH.
  - specialize (IH s1). destruct (fetch_each rest s1) as [os s2].
    cbn [fst readings] in *. apply subsequence_skip. exact IH.
Qed.

(** X6: the countries named in the list a batch returns are names of input
    countries, in input order: the list names a subsequence of the input,
    whatever the policy. *)
Theorem batch_names_subsequence (countries : list Countries.Country) (on_error : string)
    (s : State) (ws : list WeatherData) :
  fst (fetch_weather_batch countries on_error s) = Return ws ->
  subsequence (map country ws) (map Countries.name countries).
Proof.
  intros H. unfold fetch_weather_batch in H.
  destruct (batch_loop_returns on_error countries [] s ws H) as [-> _].
  apply readings_come_from_countries.
Qed.

End Service.

End WeatherServiceMore.

(** * More facts about strings and lists *)

Module TextFacts.
Import Py PyText StringFacts.

Lemma prefix_split (t h : string) :
  String.prefix t h = true -> exists b, h = t ++ b.
Proof.
  revert h. induction t as [ | x t IH]; intros h H.
  - exists h. reflexivity.
  - destruct h as [ | y h]; [discriminate | ]. cbn in H.
    destruct (ascii_dec x y) as [-> | _]; [ | discriminate].
    destruct (IH h H) as [b ->]. exists b. reflexivity.
Qed.

Lemma str_contains_split (h t : string) :
  str_contains h t = true -> exists a b, h = a ++ t ++ b.
Proof.
  induction h as [ | x h IH]; rewrite str_contains_unfold.
  - destruct (String.prefix t "") eqn:Hp; [ | discriminate].
    intros _. destruct (prefix_split _ _ Hp) as [b Hb]. exists "", b. exact Hb.
  - destruct (String.prefix t (String x h)) eqn:Hp.
    + intros _. destruct (prefix_split _ _ Hp) as [b Hb]. exists "", b. exact Hb.
    + intros H. destruct (IH H) as (a & b & ->). exists (String x a), b. reflexivity.
Qed.

Lemma str_contains_inside (a h b t : string) :
  str_contains h t = true -> str_contains (a ++ h ++ b) t = true.
Proof.
  intros H. destruct (str_contains_split h t H) as (a' & b' & ->).
  rewrite !append_assoc, <- (append_assoc a a'). apply str_contains_append.
Qed.

Lemma str_contains_prefix (t b : string) : str_contains (t ++ b) t = true.
Proof. apply (str_contains_append "" t b). Qed.

Lemma str_contains_refl (t : string) : str_contains t t = true.
Proof. exact (str_contains_suffix "" t). Qed.

Lemma str_contains_ljust (width : nat) (s : string) : str_contains (ljust width s) s = true.
Proof. apply str_contains_prefix. Qed.

Lemma join_split (sep x : string) (l : list string) :
  In x l -> exists a b, join sep l = a ++ x ++ b.
Proof.
  unfold join. induction l as [ | y l IH]; intros Hin; [contradiction | ].
  destruct Hin as [-> | Hin].
  - destruct l as [ | z l]; cbn.
    + exists "", "". rewrite append_nil_r. reflexivity.
    + exists "", (sep ++ String.concat sep (z :: l)). reflexivity.
  - destruct (IH Hin) as (a & b & Hab). destruct l as [ | z l]; [contradiction | ].
    cbn [String.concat] in *. rewrite Hab.
    exists (y ++ sep ++ a), b. rewrite !append_assoc. reflexivity.
Qed.

Lemma str_contains_join (sep line t : string) (l : list string) :
  In line l -> str_contains line t = true -> str_contains (join sep l) t = true.
Proof.
  intros Hin Ht. destruct (join_split sep line l Hin) as (a & b & ->).
  apply str_contains_inside. exact Ht.
Qed.

Lemma str_contains_line (sep line : string) (l : list string) :
  In line l -> str_contains (join sep l) line = true.
Proof. intros Hin. eapply str_contains_join; [exact Hin | apply str_contains_refl]. Qed.

Lemma join_snoc (sep x y : string) (l : list string) :
  join sep ((x :: l) ++ [y]) = join sep (x :: l) ++ sep ++ y.
Proof.
  unfold join. revert x. induction l as [ | z l IH]; intros x; [reflexivity | ].
  cbn [app String.concat] in *. rewrite IH. rewrite !append_assoc. reflexivity.
Qed.

Lemma fold_left_snoc {A B : Type} (f : A -> B) (l : list A) :
  forall acc, fold_left (fun result x => (result ++ [f x])%list) l acc = (acc ++ map f l)%list.
Proof.
  induction l as [ | x l IH]; intros acc; cbn.
  - rewrite app_nil_r. reflexivity.
  - rewrite IH, <- app_assoc. reflexivity.
Qed.

Lemma In_insert_sorted (x y : string) (l : list string) :
  In x (insert_sorted y l) -> x = y \/ In x l.
Proof.
  induction l as [ | z l IH]; cbn.
  - intros [<- | []]. left. reflexivity.
  - destruct (String.leb y z); cbn.
    + intros [<- | H]; [left; reflexivity | right; exact H].
    + intros [<- | H]; [right; left; reflexivity | ].
      destruct (IH H) as [-> | H']; [left; reflexivity | right; right; exact H'].
Qed.

Lemma In_py_sorted (x : string) (l : list string) : In x (py_sorted l) -> In x l.
Proof.
  unfold py_sorted. induction l as [ | y l IH]; cbn; [tauto | ].
  intros H. destruct (In_insert_sorted _ _ _ H) as [-> | H']; [left; reflexivity | ].
  right. apply IH. exact H'.
Qed.

Lemma assoc_of_key {V : Type} (k : string) (d : list (string * V)) :
  In k (map fst d) -> exists v, assoc String.eqb k d = Some v.
Proof.
  induction d as [ | [k0 v0] d IH]; cbn; [contradiction | ].
  intros [<- | H].
  - rewrite String.eqb_refl. eexists. reflexivity.
  - destruct (String.eqb k k0); [eexists; reflexivity | apply IH; exact H].
Qed.

Lemma assoc_setdefault_append {V : Type} (k k' : string) (v : V) (d : list (string * list V)) :
  assoc String.eqb k' (setdefault_append k v d) =
  if String.eqb k' k
  then Some (match assoc String.eqb k d with Some vs => vs ++ [v] | None => [v] end)%list
  else assoc String.eqb k' d.
Proof.
  induction d as [ | [k0 vs] d IH]; cbn.
  - destruct (String.eqb k' k); reflexivity.
  - destruct (String.eqb_spec k k0) as [-> | Hne]; cbn.
    + destruct (String.eqb k' k0); reflexivity.
    + rewrite IH. destruct (String.eqb_spec k' k0) as [-> | Hne'].
      * destruct (String.eqb_spec k0 k) as [-> | _]; [contradiction | reflexivity].
      * reflexivity.
Qed.

Lemma keys_setdefault_append {V : Type} (k : string) (v : V) (d : list (string * list V)) :
  map fst (setdefault_append k v d) =
  if existsb (String.eqb k) (map fst d) then map fst d else (map fst d ++ [k])%list.
Proof.
  induction d as [ | [k0 vs] d IH]; cbn; [reflexivity | ].
  destruct (String.eqb k k0); cbn; [reflexivity | ].
  rewrite IH. destruct (existsb (String.eqb k) (map fst d)); reflexivity.
Qed.

Lemma int_to_float_outcome (n : Z) :
  ReportVocabulary.returns_or_overflows (int_to_float n).
Proof.
  unfold int_to_float.
  destruct (SpecFloat.binary_normalize _ _ _ _ _);
    first [ left; eexists; reflexivity | right; eexists; reflexivity ].
Qed.

End TextFacts.

(** * Properties of the report texts *)

Module ReportTexts.
Import Py PyText WeatherService Report Vocabulary ReportVocabulary StringFacts TextFacts.

(** X8: the text of [format_single_report] shows the country, the capital
    and the continent of the reading, its temperature display, its
    humidity followed by a percent sign, its wind speed followed by the
    unit, and the value of its condition. *)
Theorem format_single_report_shows_fields (w : WeatherData) :
  str_contains (format_single_report w) (country w) = true /\
  str_contains (format_single_report w) (capital w) = true /\
  str_contains (format_single_report w) (continent w) = true /\
  str_contains (format_single_report w) (temperature_display w) = true /\
  str_contains (format_single_report w) (str_of_int (humidity w) ++ "%") = true /\
  str_contains (format_single_report w) (format_fixed 1 (wind_speed_kmh w) ++ " km/h") = true /\
  str_contains (format_single_report w) (condition_value (condition w)) = true.
Proof.
  unfold format_single_report.
  repeat split;
    (eapply str_contains_join;
     [ | first [ apply str_contains_suffix
               | apply str_contains_inside; apply str_contains_prefix ] ]);
    cbn [In]; auto 10.
Qed.

(** X9: the summary table has a row for every reading: the row, and with
    it the names of the country and of the capital, occurs in the table;
    and a reading added at the end of the list adds its row, after a
    newline, at the end of the table. *)
Theorem summary_table_rows (weather_list : list WeatherData) :
  (forall w, In w weather_list ->
             str_contains (format_summary_table weather_list) (summary_row w) = true /\
             str_contains (format_summary_table weather_list) (country w) = true /\
             str_contains (format_summary_table weather_list) (capital w) = true) /\
  (forall w, format_summary_table (weather_list ++ [w]) =
             format_summary_table weather_list ++ NL ++ summary_row w).
Proof.
  split.
  - intros w Hin.
    assert (Hrow : In (summary_row w)
                      ([summary_header; str_mul "-" (py_len summary_header)]
                         ++ map summary_row weather_list)).
    { apply in_or_app. right. apply in_map. exact Hin. }
    unfold format_summary_table. repeat split.
    + apply str_contains_line. exact Hrow.
    + eapply str_contains_join; [exact Hrow | ].
      unfold summary_row, ljust. rewrite append_assoc. apply str_contains_prefix.
    + eapply str_contains_join; [exact Hrow | ].
      unfold summary_row. rewrite <- (append_assoc (ljust 40 (country w)) " ").
      apply str_contains_inside. apply str_contains_ljust.
  - intros w. unfold format_summary_table.
    rewrite map_app. cbn [map app].
    change (summary_header :: str_mul "-" (py_len summary_header)
              :: (map summary_row weather_list ++ [summary_row w])%list)
      with ((summary_header :: str_mul "-" (py_len summary_header)
               :: map summary_row weather_list) ++ [summary_row w])%list.
    apply join_snoc.
Qed.

Lemma grouping_invariant (l : list WeatherData) :
  forall d,
    NoDup (map fst d) ->
    let d' := fold_left (fun d w => setdefault_append (continent w) w d) l d in
    NoDup (map fst d') /\
    forall k,
      assoc String.eqb k d' =
      match assoc String.eqb k d, filter (of_continent k) l with
      | Some g, more => Some (g ++ more)%list
      | None, [] => None
      | None, more => Some more
      end.
Proof.
  induction l as [ | w l IH]; intros d Hd; cbn [fold_left filter].
  - split; [exact Hd | ]. intros k. cbv zeta.
    destruct (assoc String.eqb k d); [rewrite app_nil_r | ]; reflexivity.
  - destruct (IH (setdefault_append (continent w) w d)) as [Hnodup Hgroups].
    { rewrite keys_setdefault_append.
      destruct (existsb (String.eqb (continent w)) (map fst d)) eqn:Hex; [exact Hd | ].
      apply NoDup_app; [exact Hd | repeat constructor; intros [] | ].
      intros x Hx [<- | []].
      assert (existsb (String.eqb (continent w)) (map fst d) = true).
      { apply existsb_exists. exists (continent w).
        split; [exact Hx | apply String.eqb_refl]. }
      congruence. }
    split; [exact Hnodup | ]. intros k. cbv zeta in *. rewrite Hgroups.
    rewrite assoc_setdefault_append.
    change (of_continent k w) with (String.eqb (continent w) k).
    rewrite (String.eqb_sym (continent w) k).
    destruct (String.eqb k (continent w)) eqn:Hk.
    + apply String.eqb_eq in Hk. subst k.
      destruct (assoc String.eqb (continent w) d); cbn.
      * rewrite <- app_assoc. reflexivity.
      * reflexivity.
    + destruct (assoc String.eqb k d); reflexivity.
Qed.

Lemma continent_data_lookup (weather_list : list WeatherData) (k : string) :
  assoc String.eqb k (continent_data weather_list) =
  match filter (of_continent k) weather_list with
  | [] => None
  | group => Some group
  end.
Proof.
  destruct (grouping_invariant weather_list [] (NoDup_nil _)) as [_ Hgroups].
  apply Hgroups.
Qed.

(** X10: the first loop of [format_continent_summary] groups the readings
    by continent: every continent is a key once, and under a continent
    stand exactly the readings of that continent, in input order; a
    continent without reading is no key, so no group is empty. *)
Theorem continent_data_groups (weather_list : list WeatherData) :
  NoDup (map fst (continent_data weather_list)) /\
  forall k,
    assoc String.eqb k (continent_data weather_list) =
    match filter (of_continent k) weather_list with
    | [] => None
    | group => Some group
    end.
Proof.
  split.
  - apply (grouping_invariant weather_list [] (NoDup_nil _)).
  - apply continent_data_lookup.
Qed.

Section Summaries.
Context {builtins : Builtins}.

Lemma continent_lines_outcome (name : string) (data : list WeatherData) :
  data <> [] -> returns_or_overflows (continent_lines name data).
Proof.
  destruct data as [ | w rest]; [contradiction | intros _].
  unfold continent_lines, float_div_int, int_div_int.
  cbn [map List.length].
  assert (Hlen : forall n : nat, (Z.of_nat (S n) =? 0)%Z = false)
    by (intros n; apply Z.eqb_neq; lia).
  rewrite !Hlen.
  destruct (int_to_float_outcome (Z.of_nat (S (List.length (map temperature_celsius rest)))))
    as [[b ->] | [msg ->]]; [ | right; eexists; reflexivity].
  cbn [bind ret Monad_outcome py_min py_max].
  destruct (int_truediv _ _); [left | right]; eexists; reflexivity.
Qed.

Lemma summary_loop_outcome (d : list (string * list WeatherData)) (names : list string) :
  (forall c, In c names ->
             exists data, assoc String.eqb c d = Some data /\ data <> []) ->
  forall lines, returns_or_overflows (summary_loop d names lines).
Proof.
  induction names as [ | c rest IH]; intros Hkeys lines.
  - left. eexists. reflexivity.
  - cbn [summary_loop]. unfold dict_getitem.
    destruct (Hkeys c (or_introl eq_refl)) as (data & -> & Hdata).
    cbn [bind Monad_outcome].
    destruct (continent_lines_outcome c data Hdata) as [[added ->] | [msg ->]].
    + cbn [bind Monad_outcome]. apply IH. intros c' Hc'. apply Hkeys. right. exact Hc'.
    + right. eexists. reflexivity.
Qed.

(** X11: [format_continent_summary] never divides by zero, never takes the
    minimum or maximum of an empty list and never misses a key: it
    returns its text, the empty text on the empty list, unless an average
    is beyond the range of a double, which is an [OverflowError]. *)
Theorem continent_summary_never_divides_by_zero (weather_list : list WeatherData) :
  format_continent_summary [] = Return "" /\
  returns_or_overflows (format_continent_summary weather_list).
Proof.
  split; [reflexivity | ].
  unfold format_continent_summary.
  destruct (summary_loop_outcome (continent_data weather_list)
              (py_sorted (map fst (continent_data weather_list)))) with (lines := @nil string)
    as [[lines ->] | [msg ->]].
  - intros c Hc. apply In_py_sorted in Hc.
    destruct (assoc_of_key c _ Hc) as [data Hdata]. exists data. split; [exact Hdata | ].
    rewrite continent_data_lookup in Hdata.
    destruct (filter (of_continent c) weather_list); [discriminate | ].
    injection Hdata as <-. discriminate.
  - left. eexists. reflexivity.
  - right. eexists. reflexivity.
Qed.

(** X13: [generate_full_report] fails only as [format_continent_summary]
    fails, with the same exception; otherwise its text contains the
    summary table and the continent summary of the list, the number of
    readings after ["Countries: "], and the time stamp after
    ["Generated: "]. *)
Theorem full_report_contents (weather_list : list WeatherData) :
  (forall e, format_continent_summary weather_list = Raise e ->
             generate_full_report weather_list = Raise e) /\
  (forall summary,
      format_continent_summary weather_list = Return summary ->
      exists report,
        generate_full_report weather_list = Return report /\
        str_contains report (format_summary_table weather_list) = true /\
        str_contains report summary = true /\
        str_contains report
          ("  Countries: " ++ str_of_int (Z.of_nat (List.length weather_list))) = true /\
        str_contains report ("  Generated: " ++ utc_now_text) = true).
Proof.
  unfold generate_full_report. split.
  - intros e ->. reflexivity.
  - intros summary ->. cbn [bind Monad_outcome]. eexists. split; [reflexivity | ].
    repeat split; apply str_contains_line; cbn [In]; auto 20.
Qed.

End Summaries.

(** X12: [format_extremes] answers the empty list with the no-data
    sentence; for every other list it returns, under the heading and the
    rule, the four lines of the hottest, coldest, most humid and windiest
    reading that [find_extremes] finds, each with the country, the capital
    and the value, and never the no-data sentence. *)
Theorem format_extremes_lines :
  format_extremes [] = Return "No data available for extremes." /\
  forall weather_list : list WeatherData,
    weather_list <> [] ->
    exists hottest coldest most_humid windiest,
      find_extremes weather_list =
        Return [ ("hottest", Some hottest); ("coldest", Some coldest);
                 ("most_humid", Some most_humid); ("windiest", Some windiest) ] /\
      format_extremes weather_list =
        Return (join NL
                  [ NL ++ "  WEATHER EXTREMES";
                    "  " ++ str_mul "-" 40;
                    extreme_line "  Hottest     : " hottest
                      (format_fixed 1 (temperature_celsius hottest) ++ "°C");
                    extreme_line "  Coldest     : " coldest
                      (format_fixed 1 (temperature_celsius coldest) ++ "°C");
                    extreme_line "  Most Humid  : " most_humid
                      (str_of_int (humidity most_humid) ++ "%");
                    extreme_line "  Windiest    : " windiest
                      (format_fixed 1 (wind_speed_kmh windiest) ++ " km/h") ]) /\
      format_extremes weather_list <> Return "No data available for extremes.".
Proof.
  split; [reflexivity | ].
  intros [ | first rest] Hne; [contradiction | ].
  eexists _, _, _, _.
  split; [reflexivity | ]. split; [reflexivity | ].
  discriminate.
Qed.

End ReportTexts.

(** * Properties of the commands *)

Module CliSpec.
Import Py PyText Requests WeatherService Report Geography Cli Vocabulary.
Import WeatherServiceSpec WeatherServiceMore TextFacts.

Section Commands.
Context {parsers : StrParsers} {net : Network} {builtins : Builtins}.
Context {countries_module : CountryLookups}.

#[local] Arguments fetch_weather : simpl never.
#[local] Arguments fetch_weather_batch : simpl never.
#[local] Arguments generate_full_report : simpl never.
#[local] Arguments format_extremes : simpl never.
#[local] Arguments format_single_report : simpl never.
#[local] Arguments str_mul : simpl never.
#[local] Arguments str_of_int : simpl never.

(** X14: [cmd_country] on a name the lookup does not know sends no
    request, prints nothing to standard output, prints its two messages
    to standard error and returns 1.  On a known name it sends exactly the
    request of that country; when the fetch succeeds it prints the
    heading, the rule and the single report and returns 0; when the fetch
    ends in a [WeatherServiceError] it prints ["Error: "] and the message
    to standard error and returns 1; any other exception leaves the
    command as it came, with nothing printed. *)
Theorem cmd_country_behaviour (name : string) (k : Console) :
  (get_country_by_name name = None ->
   cmd_country name k =
   (Return 1,
    {| session := session k;
       stdout := stdout k;
       stderr :=
         (stderr k ++
            [ ("Error: Country '" ++ name ++ "' not found.")%string;
              "Use 'weather-report list-countries' to see available countries." ])%list |})) /\
  (forall c,
      get_country_by_name name = Some c ->
      sent (session (snd (cmd_country name k))) = (sent (session k) ++ [request_of c])%list /\
      match fst (fetch_weather c (session k)) with
      | Return weather =>
          fst (cmd_country name k) = Return 0 /\
          stdout (snd (cmd_country name k)) =
            (stdout k ++ [ (NL ++ "  Weather Report for " ++ Countries.name c)%string;
                           ("  " ++ str_mul "-" 40)%string;
                           format_single_report weather ])%list /\
          stderr (snd (cmd_country name k)) = stderr k
      | Raise e =>
          stdout (snd (cmd_country name k)) = stdout k /\
          if isinstance e WeatherServiceError
          then fst (cmd_country name k) = Return 1 /\
               stderr (snd (cmd_country name k)) =
                 (stderr k ++ [("Error: " ++ exn_str e)%string])%list
          else fst (cmd_country name k) = Raise e /\
               stderr (snd (cmd_country name k)) = stderr k
      end).
Proof.
  split.
  - intros Hnone. unfold cmd_country. rewrite Hnone.
    unfold print_err. cbn. rewrite <- app_assoc. reflexivity.
  - intros c Hsome. unfold cmd_country. rewrite Hsome. unfold call.
    pose proof (fetch_weather_sent c (session k)) as Hsent.
    destruct (fetch_weather c (session k)) as [[weather | e] s]; cbn [fst snd] in *.
    + unfold print. cbn. rewrite <- !app_assoc. auto.
    + destruct (isinstance e WeatherServiceError); unfold print_err; cbn; auto.
Qed.

(** What the two batch commands do once the countries are known. *)
Lemma report_run (countries : list Countries.Country) (k : Console) (code : Z) :
  fst ((weather_list <- call (fetch_weather_batch countries "skip") ;;
        report <- eval (generate_full_report weather_list) ;;
        _ <- print report ;;
        extremes <- eval (format_extremes weather_list) ;;
        _ <- print extremes ;;
        ret 0) k) = Return code ->
  code = 0 /\
  exists weather_list report extremes,
    fst (fetch_weather_batch countries "skip" (session k)) = Return weather_list /\
    generate_full_report weather_list = Return report /\
    format_extremes weather_list = Return extremes /\
    snd ((weather_list <- call (fetch_weather_batch countries "skip") ;;
          report <- eval (generate_full_report weather_list) ;;
          _ <- print report ;;
          extremes <- eval (format_extremes weather_list) ;;
          _ <- print extremes ;;
          ret 0) k) =
    {| session := snd (fetch_weather_batch countries "skip" (session k));
       stdout := (stdout k ++ [report; extremes])%list;
       stderr := stderr k |}.
Proof.
  unfold call, eval, print. cbn.
  destruct (fetch_weather_batch countries "skip" (session k)) as [[ws | e] s];
    cbn; [ | discriminate].
  destruct (generate_full_report ws) as [report | e] eqn:Hreport; cbn; [ | discriminate].
  destruct (format_extremes ws) as [extremes | e] eqn:Hextremes; cbn; [ | discriminate].
  intros [= <-]. split; [reflexivity | ].
  exists ws, report, extremes. rewrite <- app_assoc. repeat split; assumption.
Qed.

(** X15: [cmd_continent] on a name without countries sends no request,
    prints nothing to standard output, prints its two messages to standard
    error and returns 1.  On a name with countries, whenever it returns
    its exit code is 0, however many fetches failed: it has sent one
    request per country of the continent, and printed the announcement,
    the full report and the extremes of the readings that the batch
    returned, and nothing to standard error. *)
Theorem cmd_continent_behaviour (name : string) (k : Console) :
  (get_countries_by_continent name = [] ->
   cmd_continent name k =
   (Return 1,
    {| session := session k;
       stdout := stdout k;
       stderr :=
         (stderr k ++
            [ ("Error: Continent '" ++ name ++ "' not found.")%string;
              "Use 'weather-report list-continents' to see available continents." ])%list |})) /\
  (forall code,
      get_countries_by_continent name <> [] ->
      fst (cmd_continent name k) = Return code ->
      code = 0 /\
      exists weather_list report extremes,
        fst (fetch_weather_batch (get_countries_by_continent name) "skip" (session k)) =
          Return weather_list /\
        generate_full_report weather_list = Return report /\
        format_extremes weather_list = Return extremes /\
        stdout (snd (cmd_continent name k)) =
          (stdout k ++
             [ ("Fetching weather data for " ++ name ++ " ("
                  ++ str_of_int (Z.of_nat (List.length (get_countries_by_continent name)))
                  ++ " countries)..." ++ NL)%string;
               report; extremes ])%list /\
        stderr (snd (cmd_continent name k)) = stderr k /\
        sent (session (snd (cmd_continent name k))) =
          (sent (session k) ++ map request_of (get_countries_by_continent name))%list).
Proof.
  split.
  - intros Hnone. unfold cmd_continent. rewrite Hnone.
    unfold print_err. cbn. rewrite <- app_assoc. reflexivity.
  - intros code. unfold cmd_continent. intros Hknown.
    destruct (get_countries_by_continent name) as [ | c rest] eqn:Hcountries;
      [contradiction | ].
    intros H.
    set (countries := c :: rest) in *.
    set (k1 := {| session := session k;
                  stdout := (stdout k ++
                     [("Fetching weather data for " ++ name ++ " ("
                         ++ str_of_int (Z.of_nat (List.length countries))
                         ++ " countries)..." ++ NL)%string])%list;
                  stderr := stderr k |}).
    destruct (report_run countries k1 code H)
      as (-> & ws & report & extremes & Hbatch & Hreport & Hextremes & Hstate).
    split; [reflexivity | ]. exists ws, report, extremes.
    change (snd ((_ <- print _ ;; _) k))
      with (snd ((weather_list <- call (fetch_weather_batch countries "skip") ;;
                  report <- eval (generate_full_report weather_list) ;;
                  _ <- print report ;;
                  extremes <- eval (format_extremes weather_list) ;;
                  _ <- print extremes ;;
                  ret 0) k1)).
    rewrite Hstate. cbn [session stdout stderr k1].
    repeat split; try assumption.
    + rewrite <- app_assoc. reflexivity.
    + apply (batch_returns_sent _ _ _ _ Hbatch).
Qed.

(** X16: whenever [cmd_all] returns, its exit code is 0, also when every
    fetch failed: it has sent one request for each country of the table,
    in the order of the table, and printed the announcement, the full
    report and the extremes of the readings that the batch returned, and
    nothing to standard error. *)
Theorem cmd_all_exit_code (k : Console) (code : Z) :
  fst (cmd_all k) = Return code ->
  code = 0 /\
  exists weather_list report extremes,
    fst (fetch_weather_batch get_all_countries "skip" (session k)) = Return weather_list /\
    generate_full_report weather_list = Return report /\
    format_extremes weather_list = Return extremes /\
    stdout (snd (cmd_all k)) =
      (stdout k ++
         [ ("Fetching weather data for all countries... This may take a few minutes."
              ++ NL)%string;
           report; extremes ])%list /\
    stderr (snd (cmd_all k)) = stderr k /\
    sent (session (snd (cmd_all k))) =
      (sent (session k) ++ map request_of get_all_countries)%list.
Proof.
  unfold cmd_all. intros H.
  set (k1 := {| session := session k;
                stdout := (stdout k ++
                   [("Fetching weather data for all countries... This may take a few minutes."
                       ++ NL)%string])%list;
                stderr := stderr k |}).
  destruct (report_run get_all_countries k1 code H)
    as (-> & ws & report & extremes & Hbatch & Hreport & Hextremes & Hstate).
  split; [reflexivity | ]. exists ws, report, extremes.
  change (snd ((_ <- print _ ;; _) k))
    with (snd ((weather_list <- call (fetch_weather_batch get_all_countries "skip") ;;
                report <- eval (generate_full_report weather_list) ;;
                _ <- print report ;;
                extremes <- eval (format_extremes weather_list) ;;
                _ <- print extremes ;;
                ret 0) k1)).
  rewrite Hstate. cbn [session stdout stderr k1].
  repeat split; try assumption.
  - rewrite <- app_assoc. reflexivity.
  - apply (batch_returns_sent _ _ _ _ Hbatch).
Qed.

Lemma print_each_run {A : Type} (line : A -> string) (items : list A) :
  forall k,
    print_each line items k =
    (Return tt,
     {| session := session k;
        stdout := (stdout k ++ map line items)%list;
        stderr := stderr k |}).
Proof.
  induction items as [ | item rest IH]; intros k; cbn [print_each map].
  - cbn. rewrite app_nil_r. destruct k; reflexivity.
  - unfold print at 1. cbn [bind Monad_Cmd]. rewrite IH. cbn [session stdout stderr].
    rewrite <- app_assoc. reflexivity.
Qed.

(** X17: the two list commands never use the network and never write to
    standard error: they return 0 after printing a heading, a rule and
    one line for each country, resp. each continent, of the table, in the
    order of the table. *)
Theorem list_commands_print (k : Console) :
  cmd_list_countries k =
    (Return 0,
     {| session := session k;
        stdout :=
          (stdout k ++
             [ (NL ++ "Available Countries ("
                  ++ str_of_int (Z.of_nat (List.length get_all_countries)) ++ "):")%string;
               str_mul "-" 60 ] ++
             map (fun c => ("  " ++ ljust 40 (Countries.name c)
                              ++ " Capital: " ++ Countries.capital c)%string)
                 get_all_countries)%list;
        stderr := stderr k |}) /\
  cmd_list_continents k =
    (Return 0,
     {| session := session k;
        stdout :=
          (stdout k ++
             [ (NL ++ "Available Continents:")%string; str_mul "-" 30 ] ++
             map (fun continent =>
                    ("  " ++ ljust 20 continent ++ " ("
                       ++ str_of_int
                            (Z.of_nat (List.length (get_countries_by_continent continent)))
                       ++ " countries)")%string)
                 get_all_continents)%list;
        stderr := stderr k |}).
Proof.
  split.
  - unfold cmd_list_countries, print. cbn [bind ret Monad_Cmd].
    rewrite print_each_run. cbn [session stdout stderr].
    rewrite <- !app_assoc. reflexivity.
  - unfold cmd_list_continents, print. cbn [bind ret Monad_Cmd].
    rewrite print_each_run. cbn [session stdout stderr].
    rewrite <- !app_assoc. reflexivity.
Qed.

End Commands.

End CliSpec.

(** * Properties of the API handlers *)

Module ApiSpec.
Import Py PyText Geography Api ReportVocabulary TextFacts.

Section Handlers.
Context {countries_module : CountryLookups} {cities_module : CityLookups}.

(** X18: every list reply counts its items: under ["count"] stands the
    number of the entries listed, for the countries, the cities, the
    regions and the continents; the continents reply has one entry for
    each continent of the table, in the order of the table. *)
Theorem list_replies_are_counted :
  (forall q, counted "countries" (list_countries q)) /\
  (forall q capitals_only, counted "cities" (list_cities q capitals_only)) /\
  (forall q q', counted "regions" (list_regions q q')) /\
  counted "continents" list_continents /\
  list_continents =
    Ok (PDict [ ("count", PInt (Z.of_nat (List.length get_all_continents)));
                ("continents", PList (map continent_entry get_all_continents)) ]).
Proof.
  assert (Hlen : forall (A : Type) (f : A -> pyval) (l : list A),
             py_len_int l = PInt (Z.of_nat (List.length (map f l)))).
  { intros. unfold py_len_int. rewrite length_map. reflexivity. }
  split.
  { intros q. unfold list_countries, countries_body.
    destruct (given q); [destruct (get_countries_by_continent _) | ]; cbn;
      try exact I; eexists; rewrite (Hlen _ country_entry); reflexivity. }
  split.
  { intros q capitals_only. unfold list_cities, cities_body.
    destruct (given q);
      [destruct (get_cities_by_country _) | destruct capitals_only]; cbn;
      try exact I; eexists; rewrite (Hlen _ city_entry); reflexivity. }
  split.
  { intros q q'. unfold list_regions, regions_body.
    destruct (given q);
      [destruct (get_regions_by_country _)
      | destruct (given q'); [destruct (get_regions_by_continent _) | ] ]; cbn;
      try exact I; eexists; rewrite (Hlen _ region_entry); reflexivity. }
  split.
  - unfold list_continents. cbn. eexists. reflexivity.
  - unfold list_continents. rewrite fold_left_snoc. cbn [app].
    unfold py_len_int. rewrite length_map. reflexivity.
Qed.

(** X19: a handler answers 404 exactly when its lookup finds nothing: the
    single lookups when the name is unknown, the list handlers when the
    filter in force, a non-empty string, matches nothing; a filter that
    is absent or empty is no filter.  The continents and the root never
    fail, and no handler raises another status than 404. *)
Theorem handlers_not_found :
  (forall name, not_found (get_country name) = true <-> get_country_by_name name = None) /\
  (forall name, not_found (get_city name) = true <-> get_city_by_name name = None) /\
  (forall q,
      not_found (list_countries q) = true <->
      exists name, given q = Some name /\ get_countries_by_continent name = []) /\
  (forall q capitals_only,
      not_found (list_cities q capitals_only) = true <->
      exists name, given q = Some name /\ get_cities_by_country name = []) /\
  (forall q q',
      not_found (list_regions q q') = true <->
      (exists name, given q = Some name /\ get_regions_by_country name = []) \/
      (given q = None /\
       exists name, given q' = Some name /\ get_regions_by_continent name = [])) /\
  is_error list_continents = false /\
  is_error root = false /\
  (forall name, is_error (get_country name) = not_found (get_country name)) /\
  (forall name, is_error (get_city name) = not_found (get_city name)) /\
  (forall q, is_error (list_countries q) = not_found (list_countries q)) /\
  (forall q capitals_only,
      is_error (list_cities q capitals_only) = not_found (list_cities q capitals_only)) /\
  (forall q q', is_error (list_regions q q') = not_found (list_regions q q')).
Proof.
  split.
  { intros name. unfold get_country.
    destruct (get_country_by_name name); split; try discriminate; reflexivity. }
  split.
  { intros name. unfold get_city.
    destruct (get_city_by_name name); split; try discriminate; reflexivity. }
  split.
  { intros q. unfold list_countries. split.
    - destruct (given q) as [name | ]; [ | discriminate].
      destruct (get_countries_by_continent name) eqn:H; [ | discriminate].
      intros _. exists name. split; [reflexivity | exact H].
    - intros (name & -> & ->). reflexivity. }
  split.
  { intros q capitals_only. unfold list_cities. split.
    - destruct (given q) as [name | ]; [ | destruct capitals_only; discriminate].
      destruct (get_cities_by_country name) eqn:H; [ | discriminate].
      intros _. exists name. split; [reflexivity | exact H].
    - intros (name & -> & ->). reflexivity. }
  split.
  { intros q q'. unfold list_regions. split.
    - destruct (given q) as [name | ].
      + destruct (get_regions_by_country name) eqn:H; [ | discriminate].
        intros _. left. exists name. split; [reflexivity | exact H].
      + destruct (given q') as [name | ]; [ | discriminate].
        destruct (get_regions_by_continent name) eqn:H; [ | discriminate].
        intros _. right. split; [reflexivity | ].
        exists name. split; [reflexivity | exact H].
    - intros [(name & -> & ->) | (-> & name & -> & ->)]; reflexivity. }
  split; [reflexivity | ]. split; [reflexivity | ].
  split.
  { intros name. unfold get_country. destruct (get_country_by_name name); reflexivity. }
  split.
  { intros name. unfold get_city. destruct (get_city_by_name name); reflexivity. }
  split.
  { intros q. unfold list_countries.
    destruct (given q) as [name | ]; [ | reflexivity].
    destruct (get_countries_by_continent name); reflexivity. }
  split.
  { intros q capitals_only. unfold list_cities.
    destruct (given q) as [name | ]; [ | destruct capitals_only; reflexivity].
    destruct (get_cities_by_country name); reflexivity. }
  intros q q'. unfold list_regions.
  destruct (given q) as [name | ].
  - destruct (get_regions_by_country name); reflexivity.
  - destruct (given q') as [name | ]; [ | reflexivity].
    destruct (get_regions_by_continent name); reflexivity.
Qed.

(** X20: a country filter that is given decides alone: with it,
    [list_cities] ignores [capitals_only] and [list_regions] ignores the
    continent filter. *)
Theorem country_filter_wins (country : string) :
  country <> "" ->
  (forall capitals_only,
      list_cities (Some country) capitals_only = list_cities (Some country) false) /\
  (forall q, list_regions (Some country) q = list_regions (Some country) None).
Proof.
  intros Hne. destruct country as [ | x rest]; [contradiction | ].
  split; reflexivity.
Qed.

End Handlers.

End ApiSpec.

(** * The further properties at the fixtures *)

Module MoreExamples.
Import Py PyText Requests WeatherService Report Geography Cli Api.
Import Vocabulary ReportVocabulary Fixtures StoreFixtures.
Import WeatherServiceMore ReportTexts CliSpec ApiSpec.

#[local] Existing Instance no_numeric_strings.
#[local] Existing Instance scripted.
#[local] Existing Instance plain_builtins.
#[local] Existing Instance sample_countries.
#[local] Existing Instance sample_cities.

Lemma fetch_weather_labels_reading_witness :
  fst (fetch_weather SAMPLE_COUNTRY (start [ok SAMPLE_API_RESPONSE])) = Return SAMPLE_WEATHER /\
  country SAMPLE_WEATHER = "TestLand" /\
  capital SAMPLE_WEATHER = "TestCity" /\
  continent SAMPLE_WEATHER = "TestContinent" /\
  condition SAMPLE_WEATHER = interpret_weather_code (weather_code SAMPLE_WEATHER).
Proof.
  split; [reflexivity | ].
  apply (fetch_weather_labels_reading SAMPLE_COUNTRY (start [ok SAMPLE_API_RESPONSE])).
  reflexivity.
Defined.

Lemma fetch_weather_reads_expected_shape_witness :
  fst (fetch_weather SAMPLE_COUNTRY (start [ok SAMPLE_API_RESPONSE])) =
  Return {| country := "TestLand";
            capital := "TestCity";
            continent := "TestContinent";
            temperature_celsius := 25%float;
            temperature_fahrenheit := celsius_to_fahrenheit 25%float;
            humidity := 60;
            wind_speed_kmh := 15.5%float;
            condition := interpret_weather_code 0;
            weather_code := 0 |}.
Proof.
  apply (fetch_weather_reads_expected_shape SAMPLE_COUNTRY (start [ok SAMPLE_API_RESPONSE])
           {| raise_for_status := Return tt; json := Return SAMPLE_API_RESPONSE |}
           SAMPLE_API_RESPONSE
           [ ("temperature_2m", PFloat 25%float);
             ("relative_humidity_2m", PInt 60);
             ("weather_code", PInt 0);
             ("wind_speed_10m", PFloat 15.5%float) ]);
    reflexivity.
Defined.

Lemma non_object_body_raises_TypeError_witness :
  not_an_object (PList []) = true /\
  exists msg,
    fst (fetch_weather SAMPLE_COUNTRY (start [ok (PList [])])) = Raise (Exn TypeError msg None).
Proof.
  split; [reflexivity | ].
  apply (non_object_body_raises_TypeError SAMPLE_COUNTRY (start [ok (PList [])])
           {| raise_for_status := Return tt; json := Return (PList []) |} (PList []));
    try reflexivity.
  left. reflexivity.
Defined.

Lemma batch_that_returns_witness :
  fst (fetch_weather_batch [SAMPLE_COUNTRY; OTHER_COUNTRY] "skip"
         (start [network_error; ok SAMPLE_API_RESPONSE])) =
    Return [reading_of OTHER_COUNTRY] /\
  (List.length [reading_of OTHER_COUNTRY] <= 2)%nat /\
  sent (snd (fetch_weather_batch [SAMPLE_COUNTRY; OTHER_COUNTRY] "skip"
               (start [network_error; ok SAMPLE_API_RESPONSE]))) =
    [request_of SAMPLE_COUNTRY; request_of OTHER_COUNTRY].
Proof.
  assert (H : fst (fetch_weather_batch [SAMPLE_COUNTRY; OTHER_COUNTRY] "skip"
                     (start [network_error; ok SAMPLE_API_RESPONSE])) =
              Return [reading_of OTHER_COUNTRY]) by reflexivity.
  split; [exact H | ].
  destruct (batch_that_returns _ _ _ _ H) as (_ & Hlen & Hsent).
  split; [exact Hlen | exact Hsent].
Defined.

Lemma batch_raise_returns_all_witness :
  fst (fetch_each [SAMPLE_COUNTRY; OTHER_COUNTRY]
         (start [ok SAMPLE_API_RESPONSE; ok SAMPLE_API_RESPONSE])) =
    map Return [reading_of SAMPLE_COUNTRY; reading_of OTHER_COUNTRY] /\
  fst (fetch_weather_batch [SAMPLE_COUNTRY; OTHER_COUNTRY] "raise"
         (start [ok SAMPLE_API_RESPONSE; ok SAMPLE_API_RESPONSE])) =
    Return [reading_of SAMPLE_COUNTRY; reading_of OTHER_COUNTRY].
Proof.
  split; [reflexivity | ].
  apply batch_raise_returns_all. reflexivity.
Defined.

Lemma batch_names_subsequence_witness :
  fst (fetch_weather_batch [SAMPLE_COUNTRY; OTHER_COUNTRY] "skip"
         (start [network_error; ok SAMPLE_API_RESPONSE])) =
    Return [reading_of OTHER_COUNTRY] /\
  subsequence ["OtherLand"] ["TestLand"; "OtherLand"].
Proof.
  split; [reflexivity | ].
  apply (batch_names_subsequence [SAMPLE_COUNTRY; OTHER_COUNTRY] "skip"
           (start [network_error; ok SAMPLE_API_RESPONSE]) [reading_of OTHER_COUNTRY]).
  reflexivity.
Defined.

Lemma condition_values_distinct_witness :
  condition_value (interpret_weather_code 0) = condition_value (interpret_weather_code 1) /\
  interpret_weather_code 0 = interpret_weather_code 1.
Proof.
  split; [reflexivity | ].
  apply (proj1 condition_values_distinct). reflexivity.
Defined.

Lemma summary_table_rows_witness :
  In (reading "b" 3%float 7 2%float) THREE_READINGS /\
  str_contains (format_summary_table THREE_READINGS) "b" = true.
Proof.
  assert (Hin : In (reading "b" 3%float 7 2%float) THREE_READINGS)
    by (right; left; reflexivity).
  split; [exact Hin | ].
  destruct (summary_table_rows THREE_READINGS) as [Hrows _].
  destruct (Hrows _ Hin) as (_ & Hcountry & _). exact Hcountry.
Defined.

Lemma format_extremes_lines_witness :
  THREE_READINGS <> [] /\
  format_extremes THREE_READINGS <> Return "No data available for extremes.".
Proof.
  assert (Hne : THREE_READINGS <> []) by (intros H; discriminate H).
  split; [exact Hne | ].
  destruct format_extremes_lines as [_ Hlines].
  destruct (Hlines THREE_READINGS Hne) as (h & c & m & w & _ & _ & Hdiffers).
  exact Hdiffers.
Defined.

Lemma full_report_contents_witness :
  format_continent_summary [HUGE_HUMIDITY] =
    Raise (Exn OverflowError "integer division result too large for a float" None) /\
  generate_full_report [HUGE_HUMIDITY] =
    Raise (Exn OverflowError "integer division result too large for a float" None) /\
  exists summary report,
    format_continent_summary THREE_READINGS = Return summary /\
    generate_full_report THREE_READINGS = Return report /\
    str_contains report "  Countries: 3" = true.
Proof.
  assert (Hraise : format_continent_summary [HUGE_HUMIDITY] =
                   Raise (Exn OverflowError
                            "integer division result too large for a float" None))
    by (vm_compute; reflexivity).
  split; [exact Hraise | ].
  split; [apply (proj1 (full_report_contents [HUGE_HUMIDITY])); exact Hraise | ].
  destruct (format_continent_summary THREE_READINGS) as [summary | e] eqn:Hsummary;
    [ | vm_compute in Hsummary; discriminate Hsummary].
  destruct (proj2 (full_report_contents THREE_READINGS) summary Hsummary)
    as (report & Hreport & _ & _ & Hcount & _).
  exists summary, report. repeat split; assumption.
Defined.

Lemma cmd_country_behaviour_witness :
  get_country_by_name "Atlantis" = None /\
  fst (cmd_country "Atlantis" (console [])) = Return 1 /\
  sent (session (snd (cmd_country "Atlantis" (console [])))) = [] /\
  get_country_by_name "TestLand" = Some SAMPLE_COUNTRY /\
  sent (session (snd (cmd_country "TestLand" (console [network_error])))) =
    [request_of SAMPLE_COUNTRY].
Proof.
  destruct (cmd_country_behaviour "Atlantis" (console [])) as [Hunknown _].
  destruct (cmd_country_behaviour "TestLand" (console [network_error])) as [_ Hknown].
  split; [reflexivity | ].
  rewrite (Hunknown eq_refl).
  split; [reflexivity | ]. split; [reflexivity | ]. split; [reflexivity | ].
  apply (Hknown SAMPLE_COUNTRY eq_refl).
Defined.

Lemma cmd_continent_behaviour_witness :
  get_countries_by_continent "Narnia" = [] /\
  fst (cmd_continent "Narnia" (console [])) = Return 1 /\
  get_countries_by_continent "TestContinent" <> [] /\
  fst (cmd_continent "TestContinent" (console [network_error])) = Return 0 /\
  sent (session (snd (cmd_continent "TestContinent" (console [network_error])))) =
    [request_of SAMPLE_COUNTRY].
Proof.
  destruct (cmd_continent_behaviour "Narnia" (console [])) as [Hunknown _].
  destruct (cmd_continent_behaviour "TestContinent" (console [network_error])) as [_ Hknown].
  assert (Hne : get_countries_by_continent "TestContinent" <> [])
    by (intros H; discriminate H).
  assert (Hrun : fst (cmd_continent "TestContinent" (console [network_error])) = Return 0)
    by (vm_compute; reflexivity).
  split; [reflexivity | ].
  split; [rewrite (Hunknown eq_refl); reflexivity | ].
  split; [exact Hne | ]. split; [exact Hrun | ].
  destruct (Hknown 0 Hne Hrun) as (_ & ws & report & extremes & _ & _ & _ & _ & _ & Hsent).
  exact Hsent.
Defined.

Lemma cmd_all_exit_code_witness :
  fst (cmd_all (console [network_error; network_error])) = Return 0 /\
  fst (fetch_weather_batch get_all_countries "skip" (start [network_error; network_error])) =
    Return [] /\
  sent (session (snd (cmd_all (console [network_error; network_error])))) =
    [request_of SAMPLE_COUNTRY; request_of OTHER_COUNTRY].
Proof.
  assert (Hrun : fst (cmd_all (console [network_error; network_error])) = Return 0)
    by (vm_compute; reflexivity).
  split; [exact Hrun | ]. split; [reflexivity | ].
  destruct (cmd_all_exit_code _ _ Hrun)
    as (_ & ws & report & extremes & _ & _ & _ & _ & _ & Hsent).
  exact Hsent.
Defined.

Lemma handlers_not_found_witness :
  get_country_by_name "Atlantis" = None /\
  not_found (get_country "Atlantis") = true /\
  not_found (list_countries (Some "")) = false.
Proof.
  destruct handlers_not_found as (Hcountry & _ & Hlist & _).
  split; [reflexivity | ].
  split; [apply Hcountry; reflexivity | ].
  destruct (not_found (list_countries (Some ""))) eqn:H; [ | reflexivity].
  apply Hlist in H. destruct H as (name & Hgiven & _). discriminate Hgiven.
Defined.

Lemma country_filter_wins_witness :
  "TestLand" <> "" /\
  list_cities (Some "TestLand") true = list_cities (Some "TestLand") false.
Proof.
  assert (Hne : "TestLand" <> "") by (intros H; discriminate H).
  split; [exact Hne | ].
  apply (country_filter_wins "TestLand" Hne).
Defined.

End MoreExamples.

(** * The headings of the continent summary *)

Module ContinentHeadings.
Import Py PyText WeatherService Report Vocabulary ReportVocabulary StringFacts TextFacts.
Import ReportTexts.

Lemma In_insert_sorted_intro (x y : string) (l : list string) :
  x = y \/ In x l -> In x (insert_sorted y l).
Proof.
  induction l as [ | z l IH]; cbn.
  - intros [-> | []]. left. reflexivity.
  - destruct (String.leb y z); cbn.
    + intros [-> | H]; [left; reflexivity | right; exact H].
    + intros [-> | [-> | H]].
      * right. apply IH. left. reflexivity.
      * left. reflexivity.
      * right. apply IH. right. exact H.
Qed.

Lemma In_py_sorted_intro (x : string) (l : list string) : In x l -> In x (py_sorted l).
Proof.
  unfold py_sorted. induction l as [ | y l IH]; cbn; [tauto | ].
  intros [-> | H]; apply In_insert_sorted_intro; [left; reflexivity | right; apply IH; exact H].
Qed.

Lemma key_of_assoc {V : Type} (k : string) (v : V) (d : list (string * V)) :
  assoc String.eqb k d = Some v -> In k (map fst d).
Proof.
  induction d as [ | [k0 v0] d IH]; cbn; [discriminate | ].
  destruct (String.eqb_spec k k0) as [-> | _]; [left; reflexivity | ].
  intros H. right. apply IH. exact H.
Qed.

Section Summaries.
Context {builtins : Builtins}.

Lemma continent_lines_heading (name : string) (data : list WeatherData) (added : list string) :
  continent_lines name data = Return added ->
  In (NL ++ "  " ++ name ++ " ("
        ++ str_of_int (Z.of_nat (List.length data)) ++ " countries)") added.
Proof.
  unfold continent_lines.
  destruct (float_div_int _ _); cbn [bind Monad_outcome]; [ | discriminate].
  destruct (py_min _ _ _); cbn [bind Monad_outcome]; [ | discriminate].
  destruct (py_max _ _ _); cbn [bind Monad_outcome]; [ | discriminate].
  destruct (int_div_int _ _); cbn [bind Monad_outcome]; [ | discriminate].
  intros [= <-]. left. reflexivity.
Qed.

Lemma summary_loop_headings (d : list (string * list WeatherData)) (names : list string) :
  forall lines out,
    summary_loop d names lines = Return out ->
    (forall line, In line lines -> In line out) /\
    forall c, In c names ->
              exists data,
                assoc String.eqb c d = Some data /\
                In (NL ++ "  " ++ c ++ " ("
                      ++ str_of_int (Z.of_nat (List.length data)) ++ " countries)") out.
Proof.
  induction names as [ | c rest IH]; intros lines out.
  - cbn. intros [= <-]. split; [auto | intros c []].
  - cbn [summary_loop]. unfold dict_getitem.
    destruct (assoc String.eqb c d) as [data | ] eqn:Hdata;
      cbn [bind Monad_outcome]; [ | discriminate].
    destruct (continent_lines c data) as [added | e] eqn:Hadded;
      cbn [bind Monad_outcome]; [ | discriminate].
    intros Hrest. destruct (IH _ _ Hrest) as [Hkept Hheads].
    split.
    + intros line Hline. apply Hkept. apply in_or_app. left. exact Hline.
    + intros c' [<- | Hc'].
      * exists data. split; [exact Hdata | ].
        apply Hkept. apply in_or_app. right.
        apply continent_lines_heading. exact Hadded.
      * apply Hheads. exact Hc'.
Qed.

(** X21: when [format_continent_summary] returns, its text shows every
    continent that has a reading in the list, under a heading made of the
    continent's name and the number of the readings of that continent. *)
Theorem continent_summary_headings (weather_list : list WeatherData) (text : string)
    (w : WeatherData) :
  format_continent_summary weather_list = Return text ->
  In w weather_list ->
  str_contains text
    ("  " ++ continent w ++ " ("
       ++ str_of_int
            (Z.of_nat (List.length (filter (of_continent (continent w)) weather_list)))
       ++ " countries)") = true.
Proof.
  unfold format_continent_summary.
  destruct (summary_loop _ _ _) as [lines | e] eqn:Hloop;
    cbn [bind Monad_outcome]; [ | discriminate].
  intros [= <-] Hin.
  destruct (summary_loop_headings _ _ _ _ Hloop) as [_ Hheads].
  assert (Hgroup : assoc String.eqb (continent w) (continent_data weather_list) =
                   Some (filter (of_continent (continent w)) weather_list)).
  { rewrite continent_data_lookup.
    destruct (filter (of_continent (continent w)) weather_list) eqn:Hfilter;
      [ | reflexivity].
    assert (Hw : In w (filter (of_continent (continent w)) weather_list)).
    { apply filter_In. split; [exact Hin | apply String.eqb_refl]. }
    rewrite Hfilter in Hw. contradiction. }
  destruct (Hheads (continent w)) as (data & Hdata & Hline).
  { apply In_py_sorted_intro. eapply key_of_assoc. exact Hgroup. }
  rewrite Hgroup in Hdata. injection Hdata as <-.
  eapply str_contains_join; [exact Hline | ].
  apply str_contains_suffix.
Qed.

End Summaries.

End ContinentHeadings.

Module ContinentHeadingsExamples.
Import Py PyText WeatherService Report Vocabulary ReportVocabulary Fixtures StoreFixtures.
Import ContinentHeadings.

#[local] Existing Instance plain_builtins.

Lemma continent_summary_headings_witness :
  In (reading "b" 3%float 7 2%float) THREE_READINGS /\
  exists text,
    format_continent_summary THREE_READINGS = Return text /\
    str_contains text "  TestContinent (3 countries)" = true.
Proof.
  assert (Hin : In (reading "b" 3%float 7 2%float) THREE_READINGS)
    by (right; left; reflexivity).
  split; [exact Hin | ].
  destruct (format_continent_summary THREE_READINGS) as [text | e] eqn:Htext;
    [ | vm_compute in Htext; discriminate Htext].
  exists text. split; [reflexivity | ].
  apply (continent_summary_headings THREE_READINGS text _ Htext Hin).
Defined.

End ContinentHeadingsExamples.
